(** * Policy machinery: Gateway API wrappers and controller runnables

    A shallow embedding of two files of the policy-machinery repository:

    - the [machinery] package file that wraps Gateway API types as
      targetables, target references and policies
      (GatewayClass, Gateway, Listener, ..., BackendTLSPolicy);
    - [controller/runnable.go], with the [StateReconciler] observation
      source, [Restructure], and the Gateway API topology builder.

    Go strings are [string]; a Go [map] is a [gmap]; a Go interface value is
    an inductive type over the dynamic types that can inhabit it; a pointer
    that is dereferenced unconditionally is an [option] whose [None] makes
    the method partial. *)

From Stdlib Require Import Ascii.
From stdpp Require Import gmap strings list fin_maps.

Local Open Scope string_scope.

(** ** Go primitives *)

(** [fmt.Sprintf("%s%s%s", a, b, c)] on three strings. *)
Definition Sprintf_sss (a b c : string) : string := a +:+ b +:+ c.

(** Calling a method declared on a value receiver [func (t T) m(..)]: the
    body runs on a copy of the receiver.  The result is the pair of the
    caller's value after the call and the callee's copy when it returns. *)
Definition call_on_copy {T : Type} (body : T → T) (t : T) : T * T :=
  let callee := t in (t, body callee).

(** The built-in [append(s, elems...)]. *)
Definition go_append {A : Type} (s elems : list A) : list A := s ++ elems.

(** [lo.Values]: the values of a map, in an order the language leaves
    unspecified. *)
Definition Values {V : Type} (m : gmap string V) : list V := (map_to_list m).*2.

(** [lo.FilterMap]: the callback returns [(r, true)] to keep [r] and
    [(_, false)] to skip the element. *)
Definition FilterMap {A R : Type} (f : A → option R) (l : list A) : list R :=
  omap f l.

(** [lo.SliceToMap] (an alias of [lo.Associate]): every element yields one
    key/value pair and every pair is stored, later keys overwriting earlier
    ones. *)
Definition SliceToMap {A V : Type} (transform : A → string * V) (l : list A)
    : gmap string V :=
  foldl (λ result item, let '(k, v) := transform item in <[k:=v]> result) ∅ l.

(** [lo.Filter], [lo.Find] (the first match, if any) and
    [lo.ContainsBy]. *)
Definition Filter {A : Type} (predicate : A → bool) (l : list A) : list A :=
  List.filter predicate l.

Definition Find {A : Type} (predicate : A → bool) (l : list A) : option A :=
  List.find predicate l.

Definition ContainsBy {A : Type} (predicate : A → bool) (l : list A) : bool :=
  existsb predicate l.

(** [strings.Join]. *)
Fixpoint Join (elems : list string) (sep : string) : string :=
  match elems with
  | [] => ""
  | [e] => e
  | e :: rest => e +:+ sep +:+ Join rest sep
  end.

(** [ptr.Deref(p, def)]. *)
Definition Deref {A : Type} (p : option A) (def : A) : A :=
  match p with
  | Some v => v
  | None => def
  end.

Module machinery.

(** [schema.GroupVersionKind]. *)
Record GroupVersionKind := {
  Group : string;
  Version : string;
  Kind : string;
}.

(** The part of the [Object] interface that identifies an object.
    [GetURL] is defined per type below. *)
Class Object (T : Type) := {
  GetGroupVersionKind : T → GroupVersionKind;
  GetNamespace : T → string;
  GetName : T → string;
}.

(** [metav1.TypeMeta] (already parsed into a group/version/kind) and the
    namespace and name of [metav1.ObjectMeta]. *)
Record Meta := {
  meta_gvk : GroupVersionKind;
  meta_namespace : string;
  meta_name : string;
}.

Definition nameSectionNameURLSeparator : Ascii.ascii := "#"%char.

Definition namespacedSectionName (namespace sectionName : string) : string :=
  Sprintf_sss namespace (String nameSectionNameURLSeparator "") sectionName.

(** *** Gateway API target references ([gwapiv1alpha2]) *)

Record gw_NamespacedPolicyTargetReference := {
  nref_Group : string;
  nref_Kind : string;
  nref_Name : string;
  nref_Namespace : option string;
}.

Record gw_LocalPolicyTargetReference := {
  lref_Group : string;
  lref_Kind : string;
  lref_Name : string;
}.

Record gw_LocalPolicyTargetReferenceWithSectionName := {
  sref_LocalPolicyTargetReference : gw_LocalPolicyTargetReference;
  sref_SectionName : option string;
}.

(** *** Wrapped target references *)

Record NamespacedPolicyTargetReference := {
  NamespacedPolicyTargetReference_ref : gw_NamespacedPolicyTargetReference;
  NamespacedPolicyTargetReference_PolicyNamespace : string;
}.

Record LocalPolicyTargetReference := {
  LocalPolicyTargetReference_ref : gw_LocalPolicyTargetReference;
  LocalPolicyTargetReference_PolicyNamespace : string;
}.

Record LocalPolicyTargetReferenceWithSectionName := {
  LocalPolicyTargetReferenceWithSectionName_ref :
    gw_LocalPolicyTargetReferenceWithSectionName;
  LocalPolicyTargetReferenceWithSectionName_PolicyNamespace : string;
}.

Definition NamespacedPolicyTargetReference_GroupVersionKind
    (t : NamespacedPolicyTargetReference) : GroupVersionKind :=
  {| Group := nref_Group (NamespacedPolicyTargetReference_ref t);
     Version := "";
     Kind := nref_Kind (NamespacedPolicyTargetReference_ref t) |}.

(** Body of [SetGroupVersionKind]: the two assignments, on the receiver
    the method was handed. *)
Definition NamespacedPolicyTargetReference_SetGroupVersionKind_body
    (gvk : GroupVersionKind) (t : NamespacedPolicyTargetReference)
    : NamespacedPolicyTargetReference :=
  let r := NamespacedPolicyTargetReference_ref t in
  {| NamespacedPolicyTargetReference_ref :=
       {| nref_Group := Group gvk; nref_Kind := Kind gvk;
          nref_Name := nref_Name r; nref_Namespace := nref_Namespace r |};
     NamespacedPolicyTargetReference_PolicyNamespace :=
       NamespacedPolicyTargetReference_PolicyNamespace t |}.

(** [t.SetGroupVersionKind(gvk)] as its caller sees it: the value of [t]
    once the call has returned. *)
Definition NamespacedPolicyTargetReference_SetGroupVersionKind
    (t : NamespacedPolicyTargetReference) (gvk : GroupVersionKind)
    : NamespacedPolicyTargetReference :=
  fst (call_on_copy
         (NamespacedPolicyTargetReference_SetGroupVersionKind_body gvk) t).

Definition NamespacedPolicyTargetReference_GetNamespace
    (t : NamespacedPolicyTargetReference) : string :=
  Deref (nref_Namespace (NamespacedPolicyTargetReference_ref t))
        (NamespacedPolicyTargetReference_PolicyNamespace t).

Definition NamespacedPolicyTargetReference_GetName
    (t : NamespacedPolicyTargetReference) : string :=
  nref_Name (NamespacedPolicyTargetReference_ref t).

Definition LocalPolicyTargetReference_GroupVersionKind
    (t : LocalPolicyTargetReference) : GroupVersionKind :=
  {| Group := lref_Group (LocalPolicyTargetReference_ref t);
     Version := "";
     Kind := lref_Kind (LocalPolicyTargetReference_ref t) |}.

Definition LocalPolicyTargetReference_SetGroupVersionKind_body
    (gvk : GroupVersionKind) (t : LocalPolicyTargetReference)
    : LocalPolicyTargetReference :=
  {| LocalPolicyTargetReference_ref :=
       {| lref_Group := Group gvk; lref_Kind := Kind gvk;
          lref_Name := lref_Name (LocalPolicyTargetReference_ref t) |};
     LocalPolicyTargetReference_PolicyNamespace :=
       LocalPolicyTargetReference_PolicyNamespace t |}.

Definition LocalPolicyTargetReference_SetGroupVersionKind
    (t : LocalPolicyTargetReference) (gvk : GroupVersionKind)
    : LocalPolicyTargetReference :=
  fst (call_on_copy (LocalPolicyTargetReference_SetGroupVersionKind_body gvk) t).

Definition LocalPolicyTargetReference_GetNamespace
    (t : LocalPolicyTargetReference) : string :=
  LocalPolicyTargetReference_PolicyNamespace t.

Definition LocalPolicyTargetReference_GetName
    (t : LocalPolicyTargetReference) : string :=
  lref_Name (LocalPolicyTargetReference_ref t).

(** The embedded [LocalPolicyTargetReference] of a reference with section
    name: [t.Group], [t.Kind] and [t.LocalPolicyTargetReference.Name] are
    promoted from it. *)
Definition sref_local (t : LocalPolicyTargetReferenceWithSectionName)
    : gw_LocalPolicyTargetReference :=
  sref_LocalPolicyTargetReference
    (LocalPolicyTargetReferenceWithSectionName_ref t).

Definition sref_section (t : LocalPolicyTargetReferenceWithSectionName)
    : option string :=
  sref_SectionName (LocalPolicyTargetReferenceWithSectionName_ref t).

Definition LocalPolicyTargetReferenceWithSectionName_GroupVersionKind
    (t : LocalPolicyTargetReferenceWithSectionName) : GroupVersionKind :=
  {| Group := lref_Group (sref_local t);
     Version := "";
     Kind := lref_Kind (sref_local t) |}.

Definition LocalPolicyTargetReferenceWithSectionName_SetGroupVersionKind_body
    (gvk : GroupVersionKind) (t : LocalPolicyTargetReferenceWithSectionName)
    : LocalPolicyTargetReferenceWithSectionName :=
  {| LocalPolicyTargetReferenceWithSectionName_ref :=
       {| sref_LocalPolicyTargetReference :=
            {| lref_Group := Group gvk; lref_Kind := Kind gvk;
               lref_Name := lref_Name (sref_local t) |};
          sref_SectionName := sref_section t |};
     LocalPolicyTargetReferenceWithSectionName_PolicyNamespace :=
       LocalPolicyTargetReferenceWithSectionName_PolicyNamespace t |}.

Definition LocalPolicyTargetReferenceWithSectionName_SetGroupVersionKind
    (t : LocalPolicyTargetReferenceWithSectionName) (gvk : GroupVersionKind)
    : LocalPolicyTargetReferenceWithSectionName :=
  fst (call_on_copy
         (LocalPolicyTargetReferenceWithSectionName_SetGroupVersionKind_body gvk)
         t).

Definition LocalPolicyTargetReferenceWithSectionName_GetNamespace
    (t : LocalPolicyTargetReferenceWithSectionName) : string :=
  LocalPolicyTargetReferenceWithSectionName_PolicyNamespace t.

Definition LocalPolicyTargetReferenceWithSectionName_GetName
    (t : LocalPolicyTargetReferenceWithSectionName) : string :=
  match sref_section t with
  | None => lref_Name (sref_local t)
  | Some sectionName =>
      namespacedSectionName (lref_Name (sref_local t)) sectionName
  end.

#[export] Instance NamespacedPolicyTargetReference_Object
    : Object NamespacedPolicyTargetReference := {|
  GetGroupVersionKind := NamespacedPolicyTargetReference_GroupVersionKind;
  GetNamespace := NamespacedPolicyTargetReference_GetNamespace;
  GetName := NamespacedPolicyTargetReference_GetName;
|}.

#[export] Instance LocalPolicyTargetReference_Object
    : Object LocalPolicyTargetReference := {|
  GetGroupVersionKind := LocalPolicyTargetReference_GroupVersionKind;
  GetNamespace := LocalPolicyTargetReference_GetNamespace;
  GetName := LocalPolicyTargetReference_GetName;
|}.

#[export] Instance LocalPolicyTargetReferenceWithSectionName_Object
    : Object LocalPolicyTargetReferenceWithSectionName := {|
  GetGroupVersionKind :=
    LocalPolicyTargetReferenceWithSectionName_GroupVersionKind;
  GetNamespace := LocalPolicyTargetReferenceWithSectionName_GetNamespace;
  GetName := LocalPolicyTargetReferenceWithSectionName_GetName;
|}.

(** *** Policies *)

(** [gwapiv1alpha3.BackendTLSPolicy]: metadata and spec ([Spec.TargetRefs],
    and the hostname of [Spec.Validation] standing for its rules). *)
Record gw_BackendTLSPolicy := {
  btls_meta : Meta;
  btls_TargetRefs : list gw_LocalPolicyTargetReferenceWithSectionName;
  btls_Hostname : string;
}.

Record BackendTLSPolicy := {
  BackendTLSPolicy_obj : gw_BackendTLSPolicy;
}.

(** A value of interface type [Policy], by dynamic type: a
    [*BackendTLSPolicy], or a policy of another kind (named by its type). *)
Inductive Policy :=
  | PolicyBackendTLS (p : BackendTLSPolicy)
  | PolicyOfOtherKind (typeName : string) (m : Meta).

(** [type MergeStrategy func(Policy, Policy) Policy]. *)
Definition MergeStrategy : Type := Policy → Policy → Policy.

Definition BackendTLSPolicy_GetTargetRefs (p : BackendTLSPolicy)
    : list LocalPolicyTargetReferenceWithSectionName :=
  map (λ item,
         {| LocalPolicyTargetReferenceWithSectionName_ref := item;
            LocalPolicyTargetReferenceWithSectionName_PolicyNamespace :=
              meta_namespace (btls_meta (BackendTLSPolicy_obj p)) |})
      (btls_TargetRefs (BackendTLSPolicy_obj p)).

Section MergeStrategies.
(** [DefaultMergeStrategy] is declared with the [Policy] interface, in
    another file of the package; its body is a parameter of the
    development. *)
Variable DefaultMergeStrategy : MergeStrategy.

Definition BackendTLSPolicy_GetMergeStrategy (p : BackendTLSPolicy)
    : MergeStrategy :=
  DefaultMergeStrategy.

Definition BackendTLSPolicy_Merge (p : BackendTLSPolicy) (other : Policy)
    : Policy :=
  match other with
  | PolicyBackendTLS source =>
      BackendTLSPolicy_GetMergeStrategy source
        (PolicyBackendTLS source) (PolicyBackendTLS p)
  | PolicyOfOtherKind _ _ => PolicyBackendTLS p
  end.
End MergeStrategies.

(** *** Targetables *)

Record gw_GatewayClass := {
  gw_GatewayClass_meta : Meta;
  gw_GatewayClass_ControllerName : string;
}.

Record gw_Listener := {
  gw_Listener_Name : string;
  gw_Listener_Port : Z;
  gw_Listener_Protocol : string;
}.

Record gw_Gateway := {
  gw_Gateway_meta : Meta;
  gw_Gateway_GatewayClassName : string;
  gw_Gateway_Listeners : list gw_Listener;
}.

Record Gateway := {
  Gateway_obj : gw_Gateway;
  Gateway_attachedPolicies : list Policy;
}.

(** [Listener.Gateway] is a pointer to the parent; [None] is [nil]. *)
Record Listener := {
  Listener_obj : gw_Listener;
  Listener_Gateway : option Gateway;
  Listener_attachedPolicies : list Policy;
}.

Record gw_HTTPRouteRule := {
  gw_HTTPRouteRule_BackendRefs : list string;
}.

Record gw_HTTPRoute := {
  gw_HTTPRoute_meta : Meta;
  gw_HTTPRoute_ParentRefs : list (string * option string);
  gw_HTTPRoute_Rules : list gw_HTTPRouteRule;
}.

Record HTTPRoute := {
  HTTPRoute_obj : gw_HTTPRoute;
  HTTPRoute_attachedPolicies : list Policy;
}.

Record HTTPRouteRule := {
  HTTPRouteRule_obj : gw_HTTPRouteRule;
  HTTPRouteRule_HTTPRoute : option HTTPRoute;
  HTTPRouteRule_Name : string;
  HTTPRouteRule_attachedPolicies : list Policy;
}.

Record core_ServicePort := {
  core_ServicePort_Name : string;
  core_ServicePort_Port : Z;
}.

Record core_Service := {
  core_Service_meta : Meta;
  core_Service_Ports : list core_ServicePort;
}.

Record Service := {
  Service_obj : core_Service;
  Service_attachedPolicies : list Policy;
}.

Record ServicePort := {
  ServicePort_obj : core_ServicePort;
  ServicePort_Service : option Service;
  ServicePort_attachedPolicies : list Policy;
}.

(** The wrappers embed the API object, whose [GroupVersionKind],
    [GetNamespace] and [GetName] they promote. *)
#[export] Instance Gateway_Object : Object Gateway := {|
  GetGroupVersionKind g := meta_gvk (gw_Gateway_meta (Gateway_obj g));
  GetNamespace g := meta_namespace (gw_Gateway_meta (Gateway_obj g));
  GetName g := meta_name (gw_Gateway_meta (Gateway_obj g));
|}.

#[export] Instance HTTPRoute_Object : Object HTTPRoute := {|
  GetGroupVersionKind r := meta_gvk (gw_HTTPRoute_meta (HTTPRoute_obj r));
  GetNamespace r := meta_namespace (gw_HTTPRoute_meta (HTTPRoute_obj r));
  GetName r := meta_name (gw_HTTPRoute_meta (HTTPRoute_obj r));
|}.

#[export] Instance Service_Object : Object Service := {|
  GetGroupVersionKind s := meta_gvk (core_Service_meta (Service_obj s));
  GetNamespace s := meta_namespace (core_Service_meta (Service_obj s));
  GetName s := meta_name (core_Service_meta (Service_obj s));
|}.

Definition Listener_GetNamespace (l : Listener) : option string :=
  GetNamespace <$> Listener_Gateway l.

Definition Listener_GetName (l : Listener) : option string :=
  (λ g, namespacedSectionName (GetName g) (gw_Listener_Name (Listener_obj l)))
    <$> Listener_Gateway l.

Definition HTTPRouteRule_GetNamespace (r : HTTPRouteRule) : option string :=
  GetNamespace <$> HTTPRouteRule_HTTPRoute r.

Definition HTTPRouteRule_GetName (r : HTTPRouteRule) : option string :=
  (λ h, namespacedSectionName (GetName h) (HTTPRouteRule_Name r))
    <$> HTTPRouteRule_HTTPRoute r.

Definition ServicePort_GetNamespace (p : ServicePort) : option string :=
  GetNamespace <$> ServicePort_Service p.

Definition ServicePort_GetName (p : ServicePort) : option string :=
  (λ s, namespacedSectionName (GetName s)
          (core_ServicePort_Name (ServicePort_obj p)))
    <$> ServicePort_Service p.

(** *** Locators *)

Section Locators.
(** [UrlFromObject] is declared with the [Object] interface, in another
    file of the package.  It can read its argument only through the
    interface, so it is a function [Locator] of the results of
    [GroupVersionKind()], [GetNamespace()] and [GetName()]; that function
    is a parameter of the development. *)
Variable Locator : GroupVersionKind → string → string → string.

Definition UrlFromObject {T : Type} `{Object T} (o : T) : string :=
  Locator (GetGroupVersionKind o) (GetNamespace o) (GetName o).

Definition Gateway_GetURL (g : Gateway) : string := UrlFromObject g.

Definition HTTPRoute_GetURL (r : HTTPRoute) : string := UrlFromObject r.

Definition Service_GetURL (s : Service) : string := UrlFromObject s.

Definition Listener_GetURL (l : Listener) : option string :=
  (λ g, namespacedSectionName (UrlFromObject g)
          (gw_Listener_Name (Listener_obj l)))
    <$> Listener_Gateway l.

Definition HTTPRouteRule_GetURL (r : HTTPRouteRule) : option string :=
  (λ h, namespacedSectionName (UrlFromObject h) (HTTPRouteRule_Name r))
    <$> HTTPRouteRule_HTTPRoute r.

Definition ServicePort_GetURL (p : ServicePort) : option string :=
  (λ s, namespacedSectionName (UrlFromObject s)
          (core_ServicePort_Name (ServicePort_obj p)))
    <$> ServicePort_Service p.

Definition NamespacedPolicyTargetReference_GetURL
    (t : NamespacedPolicyTargetReference) : string :=
  UrlFromObject t.

Definition LocalPolicyTargetReference_GetURL
    (t : LocalPolicyTargetReference) : string :=
  UrlFromObject t.

Definition LocalPolicyTargetReferenceWithSectionName_GetURL
    (t : LocalPolicyTargetReferenceWithSectionName) : string :=
  UrlFromObject t.
End Locators.

(** *** Attached policies

    [SetPolicies] has a pointer receiver: the assignment is made on the
    targetable itself, and the updated targetable is returned. *)

Definition Gateway_SetPolicies (g : Gateway) (policies : list Policy) : Gateway :=
  {| Gateway_obj := Gateway_obj g; Gateway_attachedPolicies := policies |}.

Definition Gateway_Policies (g : Gateway) : list Policy :=
  Gateway_attachedPolicies g.

Definition Listener_SetPolicies (l : Listener) (policies : list Policy)
    : Listener :=
  {| Listener_obj := Listener_obj l; Listener_Gateway := Listener_Gateway l;
     Listener_attachedPolicies := policies |}.

Definition Listener_Policies (l : Listener) : list Policy :=
  Listener_attachedPolicies l.

Definition HTTPRoute_SetPolicies (r : HTTPRoute) (policies : list Policy)
    : HTTPRoute :=
  {| HTTPRoute_obj := HTTPRoute_obj r; HTTPRoute_attachedPolicies := policies |}.

Definition HTTPRoute_Policies (r : HTTPRoute) : list Policy :=
  HTTPRoute_attachedPolicies r.

Definition HTTPRouteRule_SetPolicies (r : HTTPRouteRule)
    (policies : list Policy) : HTTPRouteRule :=
  {| HTTPRouteRule_obj := HTTPRouteRule_obj r;
     HTTPRouteRule_HTTPRoute := HTTPRouteRule_HTTPRoute r;
     HTTPRouteRule_Name := HTTPRouteRule_Name r;
     HTTPRouteRule_attachedPolicies := policies |}.

Definition HTTPRouteRule_Policies (r : HTTPRouteRule) : list Policy :=
  HTTPRouteRule_attachedPolicies r.

Definition Service_SetPolicies (s : Service) (policies : list Policy) : Service :=
  {| Service_obj := Service_obj s; Service_attachedPolicies := policies |}.

Definition Service_Policies (s : Service) : list Policy :=
  Service_attachedPolicies s.

Definition ServicePort_SetPolicies (p : ServicePort) (policies : list Policy)
    : ServicePort :=
  {| ServicePort_obj := ServicePort_obj p;
     ServicePort_Service := ServicePort_Service p;
     ServicePort_attachedPolicies := policies |}.

Definition ServicePort_Policies (p : ServicePort) : list Policy :=
  ServicePort_attachedPolicies p.

(** *** GRPC routes *)

Record gw_GRPCRouteRule := {
  gw_GRPCRouteRule_BackendRefs : list string;
}.

Record gw_GRPCRoute := {
  gw_GRPCRoute_meta : Meta;
  gw_GRPCRoute_ParentRefs : list (string * option string);
  gw_GRPCRoute_Rules : list gw_GRPCRouteRule;
}.

Record GRPCRoute := {
  GRPCRoute_obj : gw_GRPCRoute;
  GRPCRoute_attachedPolicies : list Policy;
}.

Record GRPCRouteRule := {
  GRPCRouteRule_obj : gw_GRPCRouteRule;
  GRPCRouteRule_GRPCRoute : option GRPCRoute;
  GRPCRouteRule_Name : string;
  GRPCRouteRule_attachedPolicies : list Policy;
}.

#[export] Instance GRPCRoute_Object : Object GRPCRoute := {|
  GetGroupVersionKind r := meta_gvk (gw_GRPCRoute_meta (GRPCRoute_obj r));
  GetNamespace r := meta_namespace (gw_GRPCRoute_meta (GRPCRoute_obj r));
  GetName r := meta_name (gw_GRPCRoute_meta (GRPCRoute_obj r));
|}.

Definition GRPCRouteRule_GetNamespace (r : GRPCRouteRule) : option string :=
  GetNamespace <$> GRPCRouteRule_GRPCRoute r.

Definition GRPCRouteRule_GetName (r : GRPCRouteRule) : option string :=
  (λ g, namespacedSectionName (GetName g) (GRPCRouteRule_Name r))
    <$> GRPCRouteRule_GRPCRoute r.

Definition GRPCRoute_GetURL
    (Locator : GroupVersionKind → string → string → string) (r : GRPCRoute)
    : string :=
  UrlFromObject Locator r.

Definition GRPCRouteRule_GetURL
    (Locator : GroupVersionKind → string → string → string)
    (r : GRPCRouteRule) : option string :=
  (λ g, namespacedSectionName (UrlFromObject Locator g) (GRPCRouteRule_Name r))
    <$> GRPCRouteRule_GRPCRoute r.

End machinery.

Module controller.
Import machinery.

(** [schema.GroupKind], as the pair (group, kind). *)
Abbreviation GroupKind := (string * string)%type.

(** A Go [error], by its message. *)
Definition error : Type := string.

(** *** Restructure and the StateReconciler source *)

(** [unstructured.Unstructured]: the document, and the UID read from its
    metadata. *)
Record Unstructured (Doc : Type) := {
  UnstructuredContent : Doc;
  GetUID : string;
}.
Arguments UnstructuredContent {Doc} _.
Arguments GetUID {Doc} _.

(** A value of type [any] handed to [Restructure]: a
    [*unstructured.Unstructured], or a value of another dynamic type (named
    as [%T] prints it). *)
Inductive any (Doc : Type) :=
  | AnyUnstructured (u : Unstructured Doc)
  | AnyOfOtherType (typeName : string).
Arguments AnyUnstructured {Doc} _.
Arguments AnyOfOtherType {Doc} _.

(** What [client.Resource(..).Namespace(..).List(..)] answered. *)
Inductive ListResponse (Doc : Type) :=
  | ListItems (items : list (Unstructured Doc))
  | ListError (err : error).
Arguments ListItems {Doc} _.
Arguments ListError {Doc} _.

(** The fields of [Controller] and [stateReconciler] that the runnable
    reads and writes.  [stateReconciler.controller] points to the shared
    controller, whose state is threaded through [Run]. *)
Record Controller (ListFunc : Type) := {
  Controller_listFuncs : list ListFunc;
}.
Arguments Controller_listFuncs {ListFunc} _.

Record stateReconciler (ListFunc : Type) := {
  stateReconciler_listFunc : ListFunc;
}.
Arguments stateReconciler_listFunc {ListFunc} _.

Definition stateReconciler_Run {ListFunc : Type}
    (r : stateReconciler ListFunc) (c : Controller ListFunc)
    : Controller ListFunc :=
  {| Controller_listFuncs := go_append (Controller_listFuncs c) [] |}.

Definition stateReconciler_HasSynced {ListFunc : Type}
    (r : stateReconciler ListFunc) (c : Controller ListFunc) : bool :=
  true.

Section Restructure.
Context {Doc T : Type}.
(** [runtime.DefaultUnstructuredConverter.FromUnstructured(doc, &o)]:
    the value left in [o] and the error returned. *)
Variable FromUnstructured : Doc → T → T * option error.
(** [*new(T)]. *)
Variable zero : T.

(** The two results [(any, error)]; [None] is [nil]. *)
Definition Restructure (obj : any Doc) : option T * option error :=
  match obj with
  | AnyOfOtherType typeName =>
      (None, Some ("unexpected object type: " +:+ typeName))
  | AnyUnstructured unstructuredObj =>
      let '(o, err) :=
        FromUnstructured (UnstructuredContent unstructuredObj) zero in
      match err with
      | Some e => (None, Some e)
      | None => (Some o, None)
      end
  end.

(** The callback handed to [lo.SliceToMap].  The store view of a listing
    is a [RuntimeObjects], a map from UID to an interface value ([None] is
    the [nil] interface).  [T] is constrained to [RuntimeObject], so the
    assertion [obj.(RuntimeObject)] fails on the [nil] interface only. *)
Definition listFunc_transform (o : Unstructured Doc) : string * option T :=
  let '(obj, err) := Restructure (AnyUnstructured o) in
  match err with
  | Some _ => ("", None)
  | None =>
      match obj with
      | None => ("", None)
      | Some runtimeObj => (GetUID o, Some runtimeObj)
      end
  end.

(** [listFunc], given the answer of the remote listing.  A [nil] map is
    the empty map. *)
Definition listFunc (group kind : string) (resp : ListResponse Doc)
    : GroupKind * gmap string (option T) :=
  let gk := (group, kind) in
  match resp with
  | ListError _ => (gk, ∅)
  | ListItems items =>
      if Nat.eqb (length items) 0 then (gk, ∅)
      else (gk, SliceToMap listFunc_transform items)
  end.

Definition StateReconciler (group kind : string)
    : stateReconciler (ListResponse Doc → GroupKind * gmap string (option T)) :=
  {| stateReconciler_listFunc := listFunc group kind |}.
End Restructure.

(** *** The Gateway API topology builder *)

(** A value of interface type [RuntimeObject] held by the store, by
    dynamic type: one of the four Gateway API types the builder asserts, a
    type that implements [machinery.Policy] (and with it
    [machinery.Object]), a type that implements [machinery.Object] only, or
    any other type. *)
Inductive RuntimeObject :=
  | RO_GatewayClass (gc : gw_GatewayClass)
  | RO_Gateway (gw : gw_Gateway)
  | RO_HTTPRoute (httpRoute : gw_HTTPRoute)
  | RO_Service (service : core_Service)
  | RO_Policy (policy : Policy)
  | RO_Object (typeName : string) (m : Meta)
  | RO_Other (typeName : string) (m : Meta).

(** The wrapper [controller.Object]. *)
Record Object := {
  Object_RuntimeObject : RuntimeObject;
}.

(** A value of interface type [machinery.Object] built from the store. *)
Inductive machinery_Object :=
  | MO_Policy (policy : Policy)
  | MO_Object (typeName : string) (m : Meta)
  | MO_Wrapped (o : Object).

(** [type Store map[schema.GroupKind]RuntimeObjects]. *)
Abbreviation Store := (gmap GroupKind (gmap string RuntimeObject)).

(** [objs[gk]]: indexing a missing kind yields the [nil] (empty) map. *)
Definition Store_index (objs : Store) (gk : GroupKind)
    : gmap string RuntimeObject :=
  default ∅ (objs !! gk).

(** [gwapiv1.GroupVersion.Group] and [core.GroupName]. *)
Definition gwapiv1_Group : string := "gateway.networking.k8s.io".
Definition core_GroupName : string := "".

(** The comma-ok type assertions of [Build]. *)
Definition as_GatewayClass (obj : RuntimeObject) : option gw_GatewayClass :=
  match obj with RO_GatewayClass gc => Some gc | _ => None end.

Definition as_Gateway (obj : RuntimeObject) : option gw_Gateway :=
  match obj with RO_Gateway gw => Some gw | _ => None end.

Definition as_HTTPRoute (obj : RuntimeObject) : option gw_HTTPRoute :=
  match obj with RO_HTTPRoute httpRoute => Some httpRoute | _ => None end.

Definition as_Service (obj : RuntimeObject) : option core_Service :=
  match obj with RO_Service service => Some service | _ => None end.

Definition as_Policy (obj : RuntimeObject) : option Policy :=
  match obj with RO_Policy policy => Some policy | _ => None end.

Definition as_Object (obj : RuntimeObject) : option machinery_Object :=
  match obj with
  | RO_Policy policy => Some (MO_Policy policy)
  | RO_Object typeName m => Some (MO_Object typeName m)
  | _ => None
  end.

(** The callback of the [objectKinds] loop: an entry that is not a
    [machinery.Object] is wrapped, never skipped. *)
Definition object_or_wrapped (obj : RuntimeObject) : option machinery_Object :=
  match as_Object obj with
  | Some object => Some object
  | None => Some (MO_Wrapped {| Object_RuntimeObject := obj |})
  end.

Section Build.
(** [machinery.LinkFunc], [machinery.Topology] and
    [machinery.NewGatewayAPITopology] belong to other files of the
    [machinery] package and are parameters; the option constructors are
    recorded as the calls [Build] makes. *)
Context {LinkFunc Topology : Type}.

Inductive GatewayAPITopologyOptionsFunc :=
  | WithGatewayClasses (gatewayClasses : list gw_GatewayClass)
  | WithGateways (gateways : list gw_Gateway)
  | WithHTTPRoutes (httpRoutes : list gw_HTTPRoute)
  | WithServices (services : list core_Service)
  | ExpandGatewayListeners
  | ExpandHTTPRouteRules
  | ExpandServicePorts
  | WithGatewayAPITopologyLinks (linkFuncs : list LinkFunc)
  | WithGatewayAPITopologyPolicies (policies : list Policy)
  | WithGatewayAPITopologyObjects (objects : list machinery_Object).

Variable NewGatewayAPITopology : list GatewayAPITopologyOptionsFunc → Topology.

Definition RuntimeLinkFunc : Type := Store → LinkFunc.

Record gatewayAPITopologyBuilder := {
  policyKinds : list GroupKind;
  objectKinds : list GroupKind;
  objectLinks : list RuntimeLinkFunc;
}.

(** The local variables of [Build]. *)
Definition Build_gatewayClasses (objs : Store) : list gw_GatewayClass :=
  FilterMap as_GatewayClass
    (Values (Store_index objs (gwapiv1_Group, "GatewayClass"))).

Definition Build_gateways (objs : Store) : list gw_Gateway :=
  FilterMap as_Gateway (Values (Store_index objs (gwapiv1_Group, "Gateway"))).

Definition Build_httpRoutes (objs : Store) : list gw_HTTPRoute :=
  FilterMap as_HTTPRoute
    (Values (Store_index objs (gwapiv1_Group, "HTTPRoute"))).

Definition Build_services (objs : Store) : list core_Service :=
  FilterMap as_Service (Values (Store_index objs (core_GroupName, "Service"))).

Definition Build_linkFuncs (t : gatewayAPITopologyBuilder) (objs : Store)
    : list LinkFunc :=
  map (λ linkFunc : RuntimeLinkFunc, linkFunc objs) (objectLinks t).

Definition Build_policies (objs : Store) (policyKind : GroupKind)
    : list Policy :=
  FilterMap as_Policy (Values (Store_index objs policyKind)).

Definition Build_objects (objs : Store) (objectKind : GroupKind)
    : list machinery_Object :=
  FilterMap object_or_wrapped (Values (Store_index objs objectKind)).

(** The option list handed to [machinery.NewGatewayAPITopology]. *)
Definition Build_opts (t : gatewayAPITopologyBuilder) (objs : Store)
    : list GatewayAPITopologyOptionsFunc :=
  let opts :=
    [ WithGatewayClasses (Build_gatewayClasses objs);
      WithGateways (Build_gateways objs);
      WithHTTPRoutes (Build_httpRoutes objs);
      WithServices (Build_services objs);
      ExpandGatewayListeners;
      ExpandHTTPRouteRules;
      ExpandServicePorts;
      WithGatewayAPITopologyLinks (Build_linkFuncs t objs) ] in
  let opts :=
    foldl (λ opts policyKind,
             go_append opts
               [WithGatewayAPITopologyPolicies (Build_policies objs policyKind)])
          opts (policyKinds t) in
  let opts :=
    foldl (λ opts objectKind,
             go_append opts
               [WithGatewayAPITopologyObjects (Build_objects objs objectKind)])
          opts (objectKinds t) in
  opts.

Definition Build (t : gatewayAPITopologyBuilder) (objs : Store) : Topology :=
  NewGatewayAPITopology (Build_opts t objs).
End Build.

(** *** Destruct *)

Section Destruct.
Context {Doc T : Type}.
(** [runtime.DefaultUnstructuredConverter.ToUnstructured(&obj)]: the
    document and the error returned. *)
Variable ToUnstructured : T → Doc * option error.
(** The UID that a document carries in its metadata, which [GetUID]
    reads. *)
Variable uid_of : Doc → string.

Definition Destruct (obj : T) : option (Unstructured Doc) * option error :=
  let '(u, err) := ToUnstructured obj in
  match err with
  | Some e => (None, Some e)
  | None => (Some {| UnstructuredContent := u; GetUID := uid_of u |}, None)
  end.
End Destruct.

(** *** Options of the runnable builders *)

(** [schema.GroupVersionResource]. *)
Record GroupVersionResource := {
  gvr_Group : string;
  gvr_Version : string;
  gvr_Resource : string;
}.

(** [metav1.ListOptions]: its two selectors. *)
Record ListOptions := {
  ListOptions_LabelSelector : string;
  ListOptions_FieldSelector : string;
}.

Section Options.
(** A builder [func(resource, namespace, options...) RunnableBuilder] is a
    value of [BuilderFunc]; [call_builder] calls it, and
    [IncrementalInformer_func] is the function [IncrementalInformer]. *)
Context {BuilderFunc RunnableBuilder : Type}.

Record RunnableBuilderOptions := {
  RunnableBuilderOptions_LabelSelector : string;
  RunnableBuilderOptions_FieldSelector : string;
  RunnableBuilderOptions_Builder : option BuilderFunc;
}.

(** A [RunnableBuilderOption], as one of the closures that the three
    option constructors of the file return. *)
Inductive RunnableBuilderOption :=
  | FilterResourcesByLabel (selector : string)
  | FilterResourcesByField (selector : string)
  | Builder (builder : BuilderFunc).

(** The call [f(o)]: the options [o] points to, after the call. *)
Definition RunnableBuilderOption_call (f : RunnableBuilderOption)
    (o : RunnableBuilderOptions) : RunnableBuilderOptions :=
  match f with
  | FilterResourcesByLabel selector =>
      {| RunnableBuilderOptions_LabelSelector := selector;
         RunnableBuilderOptions_FieldSelector :=
           RunnableBuilderOptions_FieldSelector o;
         RunnableBuilderOptions_Builder := RunnableBuilderOptions_Builder o |}
  | FilterResourcesByField selector =>
      {| RunnableBuilderOptions_LabelSelector :=
           RunnableBuilderOptions_LabelSelector o;
         RunnableBuilderOptions_FieldSelector := selector;
         RunnableBuilderOptions_Builder := RunnableBuilderOptions_Builder o |}
  | Builder builder =>
      {| RunnableBuilderOptions_LabelSelector :=
           RunnableBuilderOptions_LabelSelector o;
         RunnableBuilderOptions_FieldSelector :=
           RunnableBuilderOptions_FieldSelector o;
         RunnableBuilderOptions_Builder := Some builder |}
  end.

(** [for _, f := range options { f(o) }]. *)
Definition apply_options (options : list RunnableBuilderOption)
    (o : RunnableBuilderOptions) : RunnableBuilderOptions :=
  foldl (λ o f, RunnableBuilderOption_call f o) o options.

Variable call_builder :
  BuilderFunc → GroupVersionResource → string → list RunnableBuilderOption →
  RunnableBuilder.
Variable IncrementalInformer_func : BuilderFunc.

(** [Watch]; calling a [nil] builder would panic ([None]). *)
Definition Watch (resource : GroupVersionResource) (namespace : string)
    (options : list RunnableBuilderOption) : option RunnableBuilder :=
  let o :=
    apply_options options
      {| RunnableBuilderOptions_LabelSelector := "";
         RunnableBuilderOptions_FieldSelector := "";
         RunnableBuilderOptions_Builder := Some IncrementalInformer_func |} in
  match RunnableBuilderOptions_Builder o with
  | Some builder => Some (call_builder builder resource namespace options)
  | None => None
  end.

(** The options [o] that [IncrementalInformer] and [StateReconciler] make
    of their arguments. *)
Definition builder_options (options : list RunnableBuilderOption)
    : RunnableBuilderOptions :=
  apply_options options
    {| RunnableBuilderOptions_LabelSelector := "";
       RunnableBuilderOptions_FieldSelector := "";
       RunnableBuilderOptions_Builder := None |}.

(** The list options that the [ListFunc] of the informer hands to the
    client, from those it is called with. *)
Definition IncrementalInformer_ListFunc_options (o : RunnableBuilderOptions)
    (options : ListOptions) : ListOptions :=
  let options :=
    if String.eqb (RunnableBuilderOptions_LabelSelector o) "" then options
    else {| ListOptions_LabelSelector := RunnableBuilderOptions_LabelSelector o;
            ListOptions_FieldSelector := ListOptions_FieldSelector options |} in
  let options :=
    if String.eqb (RunnableBuilderOptions_FieldSelector o) "" then options
    else {| ListOptions_LabelSelector := ListOptions_LabelSelector options;
            ListOptions_FieldSelector := RunnableBuilderOptions_FieldSelector o |} in
  options.

(** The same for the [WatchFunc] of the informer. *)
Definition IncrementalInformer_WatchFunc_options (o : RunnableBuilderOptions)
    (options : ListOptions) : ListOptions :=
  let options :=
    if String.eqb (RunnableBuilderOptions_LabelSelector o) "" then options
    else {| ListOptions_LabelSelector := RunnableBuilderOptions_LabelSelector o;
            ListOptions_FieldSelector := ListOptions_FieldSelector options |} in
  let options :=
    if String.eqb (RunnableBuilderOptions_FieldSelector o) "" then options
    else {| ListOptions_LabelSelector := ListOptions_LabelSelector options;
            ListOptions_FieldSelector := RunnableBuilderOptions_FieldSelector o |} in
  options.

(** The list options of the listing that [listFunc] makes. *)
Definition StateReconciler_ListOptions (o : RunnableBuilderOptions)
    : ListOptions :=
  {| ListOptions_LabelSelector := RunnableBuilderOptions_LabelSelector o;
     ListOptions_FieldSelector := RunnableBuilderOptions_FieldSelector o |}.
End Options.

(** *** The wrapper [controller.Object] *)

Definition Policy_meta (policy : Policy) : Meta :=
  match policy with
  | PolicyBackendTLS p => btls_meta (BackendTLSPolicy_obj p)
  | PolicyOfOtherKind _ m => m
  end.

(** Type and object metadata of a stored object, which
    [GetObjectKind().GroupVersionKind()], [GetNamespace()] and [GetName()]
    read. *)
Definition RuntimeObject_meta (obj : RuntimeObject) : Meta :=
  match obj with
  | RO_GatewayClass gc => gw_GatewayClass_meta gc
  | RO_Gateway gw => gw_Gateway_meta gw
  | RO_HTTPRoute httpRoute => gw_HTTPRoute_meta httpRoute
  | RO_Service service => core_Service_meta service
  | RO_Policy policy => Policy_meta policy
  | RO_Object _ m => m
  | RO_Other _ m => m
  end.

#[export] Instance Object_Object : machinery.Object Object := {|
  GetGroupVersionKind g := meta_gvk (RuntimeObject_meta (Object_RuntimeObject g));
  GetNamespace g := meta_namespace (RuntimeObject_meta (Object_RuntimeObject g));
  GetName g := meta_name (RuntimeObject_meta (Object_RuntimeObject g));
|}.

Definition Object_GetURL
    (Locator : GroupVersionKind → string → string → string) (g : Object)
    : string :=
  UrlFromObject Locator g.

End controller.

(** * The example reconcilers *)

Module reconcilers.
Import machinery controller.

(** ** Envoy Gateway security policies *)

(** [gwapiv1.BackendObjectReference], [egv1alpha1.SecurityPolicy] and the
    structures between them: the fields that the provider reads or
    writes. *)
Record gw_BackendObjectReference := {
  BackendObjectReference_Name : string;
  BackendObjectReference_Namespace : option string;
  BackendObjectReference_Port : option Z;
}.

Record eg_GRPCExtAuthService := {
  GRPCExtAuthService_BackendRef : option gw_BackendObjectReference;
}.

Record eg_ExtAuth := {
  ExtAuth_GRPC : option eg_GRPCExtAuthService;
}.

Record eg_PolicyTargetReferences := {
  PolicyTargetReferences_TargetRef :
    option gw_LocalPolicyTargetReferenceWithSectionName;
  PolicyTargetReferences_TargetRefs :
    list gw_LocalPolicyTargetReferenceWithSectionName;
}.

Record eg_SecurityPolicySpec := {
  SecurityPolicySpec_PolicyTargetReferences : eg_PolicyTargetReferences;
  SecurityPolicySpec_ExtAuth : option eg_ExtAuth;
}.

Record eg_SecurityPolicy := {
  SecurityPolicy_meta : Meta;
  SecurityPolicy_Spec : eg_SecurityPolicySpec;
}.

(** [egv1alpha1.GroupName], the version of [egv1alpha1.GroupVersion] and
    [gwapiv1alpha2.GroupName]. *)
Definition egv1alpha1_GroupName : string := "gateway.envoyproxy.io".
Definition egv1alpha1_Version : string := "v1alpha1".
Definition gwapiv1alpha2_GroupName : string := "gateway.networking.k8s.io".

Definition EnvoyGatewaySecurityPolicyKind : GroupKind :=
  (egv1alpha1_GroupName, "SecurityPolicy").

(** A [runtime.Object] by dynamic type, and a [machinery.Object] of the
    topology: a [*controller.RuntimeObject] holding a [runtime.Object], or
    an object of another type. *)
Inductive runtime_Object :=
  | RT_SecurityPolicy (sp : eg_SecurityPolicy)
  | RT_Other (typeName : string) (m : Meta).

Inductive topology_Object :=
  | TO_RuntimeObject (o : runtime_Object)
  | TO_Other (typeName : string) (m : Meta).

Definition runtime_Object_meta (o : runtime_Object) : Meta :=
  match o with
  | RT_SecurityPolicy sp => SecurityPolicy_meta sp
  | RT_Other _ m => m
  end.

Definition topology_Object_meta (o : topology_Object) : Meta :=
  match o with
  | TO_RuntimeObject o => runtime_Object_meta o
  | TO_Other _ m => m
  end.

(** [o.GroupVersionKind().GroupKind()]. *)
Definition topology_Object_GroupKind (o : topology_Object) : GroupKind :=
  (Group (meta_gvk (topology_Object_meta o)),
   Kind (meta_gvk (topology_Object_meta o))).

Definition GroupKind_eqb (a b : GroupKind) : bool :=
  String.eqb (fst a) (fst b) && String.eqb (snd a) (snd b).

(** What the provider asks of the client. *)
Inductive Write :=
  | Create (sp : eg_SecurityPolicy)
  | Update (sp : eg_SecurityPolicy)
  | Delete (namespace name : string).

Definition desiredSecurityPolicy (namespace name : string) : eg_SecurityPolicy :=
  {| SecurityPolicy_meta :=
       {| meta_gvk :=
            {| Group := egv1alpha1_GroupName; Version := egv1alpha1_Version;
               Kind := snd EnvoyGatewaySecurityPolicyKind |};
          meta_namespace := namespace;
          meta_name := name |};
     SecurityPolicy_Spec :=
       {| SecurityPolicySpec_PolicyTargetReferences :=
            {| PolicyTargetReferences_TargetRef :=
                 Some {| sref_LocalPolicyTargetReference :=
                           {| lref_Group := gwapiv1alpha2_GroupName;
                              lref_Kind := "Gateway";
                              lref_Name := name |};
                         sref_SectionName := None |};
               PolicyTargetReferences_TargetRefs := [] |};
          SecurityPolicySpec_ExtAuth :=
            Some {| ExtAuth_GRPC :=
                      Some {| GRPCExtAuthService_BackendRef :=
                                Some {| BackendObjectReference_Name :=
                                          "authorino-authorino-authorization";
                                        BackendObjectReference_Namespace :=
                                          Some "kuadrant-system";
                                        BackendObjectReference_Port :=
                                          Some 50051%Z |} |} |} |} |}.

(** The condition under which [createSecurityPolicy] leaves the policy it
    found as it is. *)
Definition ExtAuth_up_to_date (securityPolicy : eg_SecurityPolicy) : bool :=
  match SecurityPolicySpec_ExtAuth (SecurityPolicy_Spec securityPolicy) with
  | None => false
  | Some extAuth =>
      match ExtAuth_GRPC extAuth with
      | None => false
      | Some grpc =>
          match GRPCExtAuthService_BackendRef grpc with
          | None => false
          | Some backendRef =>
              match BackendObjectReference_Namespace backendRef with
              | None => false
              | Some namespace =>
                  String.eqb namespace "kuadrant-system"
                  && String.eqb (BackendObjectReference_Name backendRef)
                       "authorino-authorino-authorization"
                  && match BackendObjectReference_Port backendRef with
                     | None => false
                     | Some port => Z.eqb port 50051
                     end
              end
          end
      end
  end.

(** The predicate with which the provider looks for the security policy of
    a gateway among objects of the topology. *)
Definition is_SecurityPolicy_of (namespace name : string) (o : topology_Object)
    : bool :=
  GroupKind_eqb (topology_Object_GroupKind o) EnvoyGatewaySecurityPolicyKind
  && String.eqb (meta_namespace (topology_Object_meta o)) namespace
  && String.eqb (meta_name (topology_Object_meta o)) name.

(** [createSecurityPolicy], given the children of the gateway in the
    topology and the namespace and name of the gateway: the request made,
    if any.  The outer [None] is the panic of a failed type assertion. *)
Definition createSecurityPolicy (children : list topology_Object)
    (namespace name : string) : option (option Write) :=
  let desired := desiredSecurityPolicy namespace name in
  match Find (is_SecurityPolicy_of namespace name) children with
  | None => Some (Some (Create desired))
  | Some (TO_RuntimeObject (RT_SecurityPolicy securityPolicy)) =>
      if ExtAuth_up_to_date securityPolicy then Some None
      else Some (Some (Update
                         {| SecurityPolicy_meta :=
                              SecurityPolicy_meta securityPolicy;
                            SecurityPolicy_Spec := SecurityPolicy_Spec desired |}))
  | Some _ => None
  end.

(** [deleteSecurityPolicy], given the objects it searches (the children of
    the parent, or all the objects of the topology). *)
Definition deleteSecurityPolicy (objs : list topology_Object)
    (namespace name : string) : option Write :=
  match Find (is_SecurityPolicy_of namespace name) objs with
  | None => None
  | Some _ => Some (Delete namespace name)
  end.

(** The function of the link from gateways to security policies.
    [machinery.GatewayGroupKind] is declared in the [machinery] package;
    its kind is a parameter.  [None] is the panic of a failed type
    assertion. *)
Definition LinkGatewayToEnvoyGatewaySecurityPolicy_Func
    (GatewayGroupKind_Kind : string) (gateways : list gw_Gateway)
    (child : topology_Object) : option (list Gateway) :=
  match child with
  | TO_RuntimeObject (RT_SecurityPolicy sp) =>
      let targetReferences :=
        SecurityPolicySpec_PolicyTargetReferences (SecurityPolicy_Spec sp) in
      let refs := PolicyTargetReferences_TargetRefs targetReferences in
      let refs :=
        match PolicyTargetReferences_TargetRef targetReferences with
        | Some ref => go_append refs [ref]
        | None => refs
        end in
      let refs :=
        Filter (λ ref,
                  String.eqb (lref_Group (sref_LocalPolicyTargetReference ref))
                    gwapiv1_Group
                  && String.eqb (lref_Kind (sref_LocalPolicyTargetReference ref))
                       GatewayGroupKind_Kind)
               refs in
      if Nat.eqb (length refs) 0 then Some []
      else
        match Find (λ g,
                      if negb (String.eqb (meta_namespace (gw_Gateway_meta g))
                                 (meta_namespace (SecurityPolicy_meta sp)))
                      then false
                      else ContainsBy
                             (λ ref,
                                String.eqb
                                  (lref_Name (sref_LocalPolicyTargetReference ref))
                                  (meta_name (gw_Gateway_meta g)))
                             refs)
                   gateways with
        | Some gateway =>
            Some [ {| Gateway_obj := gateway; Gateway_attachedPolicies := [] |} ]
        | None => Some []
        end
  | _ => None
  end.

(** ** The status of a policy *)

(** [metav1.Condition]: the fields that the reconciler sets. *)
Record Condition := {
  Condition_Type : string;
  Condition_Status : string;
  Condition_Reason : string;
  Condition_Message : string;
}.

(** [metav1.ConditionTrue] and [metav1.ConditionFalse]. *)
Definition ConditionTrue : string := "True".
Definition ConditionFalse : string := "False".

Section aggregatePolicyConditions.
Context {Path Rule : Type}.
(** [lo.Map(path, machinery.MapTargetableToLocatorFunc)]. *)
Variable path_locators : Path → list string.
(** The rule that the effective policy of a path, the result of
    [effectivePolicyForPath], has under a key of its [Rules()]. *)
Variable effective_rule : Path → string → Rule.
(** [reflect.DeepEqual] and [cmp.Diff] on rules. *)
Variable DeepEqual : Rule → Rule → bool.
Variable Diff : Rule → Rule → string.

(** The loop over [ap.Rules()] for one path, on [fullyEnforced] and
    [diff]. *)
Definition rules_loop (path : Path) (rules : gmap string Rule)
    (state : bool * string) : bool * string :=
  foldl (λ state entry,
           let '(fullyEnforced, diff) := state in
           let '(k, v) := entry in
           if negb (DeepEqual (effective_rule path k) v)
           then (false, diff +:+ Diff (effective_rule path k) v +:+ ", ")
           else (fullyEnforced, diff))
        state (map_to_list rules).

(** The variables of the loop over the paths. *)
Record PathsState := {
  state_cond : Condition;
  state_enforcedPaths : list string;
  state_affectedPaths : list string;
  state_diff : string;
}.

Definition paths_loop_body (rules : gmap string Rule) (state : PathsState)
    (path : Path) : PathsState :=
  let pathString := Join (path_locators path) "→" in
  let '(fullyEnforced, diff) := rules_loop path rules (true, state_diff state) in
  if fullyEnforced
  then {| state_cond := state_cond state;
          state_enforcedPaths :=
            go_append (state_enforcedPaths state) [pathString];
          state_affectedPaths := state_affectedPaths state;
          state_diff := diff |}
  else {| state_cond :=
            {| Condition_Type := Condition_Type (state_cond state);
               Condition_Status := ConditionFalse;
               Condition_Reason := "PolicyAffected";
               Condition_Message := Condition_Message (state_cond state) |};
          state_enforcedPaths := state_enforcedPaths state;
          state_affectedPaths :=
            go_append (state_affectedPaths state) [pathString];
          state_diff := diff |}.

Definition aggregatePolicyConditions (rules : gmap string Rule)
    (paths : list Path) : Condition :=
  let state :=
    foldl (paths_loop_body rules)
      {| state_cond :=
           {| Condition_Type := "Enforced"; Condition_Status := ConditionTrue;
              Condition_Reason := "Enforced"; Condition_Message := "" |};
         state_enforcedPaths := [];
         state_affectedPaths := [];
         state_diff := "diff: " |}
      paths in
  let message := "" in
  let message :=
    if Nat.ltb 0 (length (state_enforcedPaths state))
    then "Fully enforcing policy on the following paths: "
         +:+ Join (state_enforcedPaths state) ", "
    else message in
  let message :=
    if Nat.ltb 0 (length (state_affectedPaths state))
    then message
         +:+ ("Policy rules has been affected on the following paths: "
              +:+ Join (state_affectedPaths state) ", " +:+ ", "
              +:+ state_diff state)
    else message in
  {| Condition_Type := Condition_Type (state_cond state);
     Condition_Status := Condition_Status (state_cond state);
     Condition_Reason := Condition_Reason (state_cond state);
     Condition_Message := message |}.
End aggregatePolicyConditions.

End reconcilers.

(** ** Specification vocabulary and sample data *)

Module samples.
Import machinery controller.

(** A target reference with section name names the object [parent] when
    group, kind, namespace and name agree. *)
Definition names_object {P : Type} `{machinery.Object P}
    (t : LocalPolicyTargetReferenceWithSectionName) (parent : P) : Prop :=
  Group (GetGroupVersionKind parent) = lref_Group (sref_local t)
  ∧ Kind (GetGroupVersionKind parent) = lref_Kind (sref_local t)
  ∧ GetNamespace parent = GetNamespace t
  ∧ GetName parent = lref_Name (sref_local t).

Definition lower_ascii (c : Ascii.ascii) : Ascii.ascii :=
  let n := nat_of_ascii c in
  if Nat.leb 65 n && Nat.leb n 90 then ascii_of_nat (n + 32) else c.

Fixpoint ToLower (s : string) : string :=
  match s with
  | EmptyString => EmptyString
  | String c rest => String (lower_ascii c) (ToLower rest)
  end.

(** A locator scheme: lower-case kind, [':'], namespace, ['/'], name. *)
Definition sample_prefix (group kind namespace : string) : string :=
  ToLower kind +:+ ":" +:+ namespace +:+ "/".

Definition sample_Locator (gvk : GroupVersionKind) (namespace name : string)
    : string :=
  sample_prefix (Group gvk) (Kind gvk) namespace +:+ name.

(** A merge strategy that keeps its first argument. *)
Definition keep_source : MergeStrategy := λ source _, source.

Definition gvk_v1 (kind : string) : GroupVersionKind :=
  {| Group := "gateway.networking.k8s.io"; Version := "v1"; Kind := kind |}.

Definition my_gateway : Gateway :=
  {| Gateway_obj :=
       {| gw_Gateway_meta :=
            {| meta_gvk := gvk_v1 "Gateway"; meta_namespace := "my-namespace";
               meta_name := "my-gateway" |};
          gw_Gateway_GatewayClassName := "my-gateway-class";
          gw_Gateway_Listeners :=
            [ {| gw_Listener_Name := "my-listener"; gw_Listener_Port := 80;
                 gw_Listener_Protocol := "HTTP" |} ] |};
     Gateway_attachedPolicies := [] |}.

Definition my_listener : Listener :=
  {| Listener_obj :=
       {| gw_Listener_Name := "my-listener"; gw_Listener_Port := 80;
          gw_Listener_Protocol := "HTTP" |};
     Listener_Gateway := Some my_gateway;
     Listener_attachedPolicies := [] |}.

Definition my_http_route : HTTPRoute :=
  {| HTTPRoute_obj :=
       {| gw_HTTPRoute_meta :=
            {| meta_gvk := gvk_v1 "HTTPRoute"; meta_namespace := "my-namespace";
               meta_name := "my-http-route" |};
          gw_HTTPRoute_ParentRefs := [("my-gateway", None)];
          gw_HTTPRoute_Rules :=
            [ {| gw_HTTPRouteRule_BackendRefs := ["my-service"] |} ] |};
     HTTPRoute_attachedPolicies := [] |}.

Definition my_rule : HTTPRouteRule :=
  {| HTTPRouteRule_obj := {| gw_HTTPRouteRule_BackendRefs := ["my-service"] |};
     HTTPRouteRule_HTTPRoute := Some my_http_route;
     HTTPRouteRule_Name := "rule-1";
     HTTPRouteRule_attachedPolicies := [] |}.

Definition my_service : Service :=
  {| Service_obj :=
       {| core_Service_meta :=
            {| meta_gvk := {| Group := ""; Version := "v1"; Kind := "Service" |};
               meta_namespace := "my-namespace"; meta_name := "my-service" |};
          core_Service_Ports :=
            [ {| core_ServicePort_Name := "http"; core_ServicePort_Port := 80 |} ] |};
     Service_attachedPolicies := [] |}.

Definition my_port : ServicePort :=
  {| ServicePort_obj :=
       {| core_ServicePort_Name := "http"; core_ServicePort_Port := 80 |};
     ServicePort_Service := Some my_service;
     ServicePort_attachedPolicies := [] |}.

Definition section_ref (group kind name : string) (section : option string)
    : LocalPolicyTargetReferenceWithSectionName :=
  {| LocalPolicyTargetReferenceWithSectionName_ref :=
       {| sref_LocalPolicyTargetReference :=
            {| lref_Group := group; lref_Kind := kind; lref_Name := name |};
          sref_SectionName := section |};
     LocalPolicyTargetReferenceWithSectionName_PolicyNamespace :=
       "my-namespace" |}.

Definition listener_ref : LocalPolicyTargetReferenceWithSectionName :=
  section_ref "gateway.networking.k8s.io" "Gateway" "my-gateway"
    (Some "my-listener").

Definition rule_ref : LocalPolicyTargetReferenceWithSectionName :=
  section_ref "gateway.networking.k8s.io" "HTTPRoute" "my-http-route"
    (Some "rule-1").

Definition port_ref : LocalPolicyTargetReferenceWithSectionName :=
  section_ref "" "Service" "my-service" (Some "http").

Definition service_ref : LocalPolicyTargetReferenceWithSectionName :=
  section_ref "" "Service" "my-service" None.

Definition namespaced_ref (namespace : option string)
    : NamespacedPolicyTargetReference :=
  {| NamespacedPolicyTargetReference_ref :=
       {| nref_Group := "gateway.networking.k8s.io"; nref_Kind := "Gateway";
          nref_Name := "my-gateway"; nref_Namespace := namespace |};
     NamespacedPolicyTargetReference_PolicyNamespace := "policy-namespace" |}.

Definition local_ref : LocalPolicyTargetReference :=
  {| LocalPolicyTargetReference_ref :=
       {| lref_Group := ""; lref_Kind := "Service"; lref_Name := "my-service" |};
     LocalPolicyTargetReference_PolicyNamespace := "policy-namespace" |}.

Definition tls_policy (name hostname : string) : BackendTLSPolicy :=
  {| BackendTLSPolicy_obj :=
       {| btls_meta :=
            {| meta_gvk :=
                 {| Group := "gateway.networking.k8s.io"; Version := "v1alpha3";
                    Kind := "BackendTLSPolicy" |};
               meta_namespace := "my-namespace"; meta_name := name |};
          btls_TargetRefs :=
            [ LocalPolicyTargetReferenceWithSectionName_ref port_ref ];
          btls_Hostname := hostname |} |}.

Definition auth_policy : Policy :=
  PolicyOfOtherKind "*v1beta3.AuthPolicy"
    {| meta_gvk :=
         {| Group := "kuadrant.io"; Version := "v1beta3"; Kind := "AuthPolicy" |};
       meta_namespace := "my-namespace"; meta_name := "my-auth" |}.

(** The conversion of the document [o] to the typed shape failed. *)
Definition conversion_fails {Doc T : Type}
    (FromUnstructured : Doc → T → T * option error) (zero : T)
    (o : Unstructured Doc) : Prop :=
  is_Some (snd (FromUnstructured (UnstructuredContent o) zero)).

(** A converter from key/value documents to a typed object with two
    required fields; on a missing [kind] it fails after filling [name]. *)
Record Typed := {
  Typed_name : string;
  Typed_kind : string;
}.

Definition Typed_zero : Typed := {| Typed_name := ""; Typed_kind := "" |}.

Fixpoint doc_field (key : string) (doc : list (string * string))
    : option string :=
  match doc with
  | [] => None
  | (k, v) :: rest => if String.eqb k key then Some v else doc_field key rest
  end.

Definition Typed_FromUnstructured (doc : list (string * string)) (o : Typed)
    : Typed * option error :=
  match doc_field "name" doc with
  | None => (o, Some "name: required")
  | Some name =>
      let o := {| Typed_name := name; Typed_kind := Typed_kind o |} in
      match doc_field "kind" doc with
      | None => (o, Some "kind: required")
      | Some kind => ({| Typed_name := name; Typed_kind := kind |}, None)
      end
  end.

Definition good_item : Unstructured (list (string * string)) :=
  {| UnstructuredContent := [("name", "my-gateway"); ("kind", "Gateway")];
     GetUID := "uid-1" |}.

Definition bad_item : Unstructured (list (string * string)) :=
  {| UnstructuredContent := [("name", "broken")]; GetUID := "uid-2" |}.

(** The store without the entry [uid] of kind [gk]. *)
Definition Store_without (objs : Store) (gk : GroupKind) (uid : string)
    : Store :=
  <[gk := delete uid (Store_index objs gk)]> objs.

Definition my_gateway_class : gw_GatewayClass :=
  {| gw_GatewayClass_meta :=
       {| meta_gvk := gvk_v1 "GatewayClass"; meta_namespace := "";
          meta_name := "my-gateway-class" |};
     gw_GatewayClass_ControllerName := "my-gateway-controller" |}.

(** A store whose GatewayClass kind holds a GatewayClass and, under another
    UID, a Gateway. *)
Definition mixed_store : Store :=
  {[ (gwapiv1_Group, "GatewayClass") :=
       {[ "uid-gc" := RO_GatewayClass my_gateway_class;
          "uid-gw" := RO_Gateway (Gateway_obj my_gateway) ]} ]}.

(** A store whose ConfigMap kind, listed among the object kinds, holds a
    Gateway. *)
Definition ConfigMap_kind : GroupKind := ("", "ConfigMap").

Definition config_store : Store :=
  {[ ConfigMap_kind := {[ "uid-cm" := RO_Gateway (Gateway_obj my_gateway) ]} ]}.

End samples.

Module fixtures.
Import machinery controller reconcilers samples.

(** The separator ['#'] occurs in [s]. *)
Fixpoint has_separator (s : string) : bool :=
  match s with
  | EmptyString => false
  | String c rest =>
      if Ascii.eqb c nameSectionNameURLSeparator then true
      else has_separator rest
  end.

Definition my_grpc_route : GRPCRoute :=
  {| GRPCRoute_obj :=
       {| gw_GRPCRoute_meta :=
            {| meta_gvk := gvk_v1 "GRPCRoute"; meta_namespace := "my-namespace";
               meta_name := "my-grpc-route" |};
          gw_GRPCRoute_ParentRefs := [("my-gateway", None)];
          gw_GRPCRoute_Rules :=
            [ {| gw_GRPCRouteRule_BackendRefs := ["my-service"] |} ] |};
     GRPCRoute_attachedPolicies := [] |}.

Definition my_grpc_rule : GRPCRouteRule :=
  {| GRPCRouteRule_obj := {| gw_GRPCRouteRule_BackendRefs := ["my-service"] |};
     GRPCRouteRule_GRPCRoute := Some my_grpc_route;
     GRPCRouteRule_Name := "rule-1";
     GRPCRouteRule_attachedPolicies := [] |}.

Definition other_listener : Listener :=
  {| Listener_obj :=
       {| gw_Listener_Name := "my-listener"; gw_Listener_Port := 443;
          gw_Listener_Protocol := "HTTPS" |};
     Listener_Gateway := Some my_gateway;
     Listener_attachedPolicies := [PolicyBackendTLS (tls_policy "tls" "example.com")] |}.

(** The inverse of [Typed_FromUnstructured]; an object without a name
    cannot be written out. *)
Definition Typed_ToUnstructured (o : Typed)
    : list (string * string) * option error :=
  if String.eqb (Typed_name o) "" then ([], Some "name: required")
  else ([("name", Typed_name o); ("kind", Typed_kind o)], None).

Definition Typed_uid_of (doc : list (string * string)) : string :=
  default "" (doc_field "uid" doc).

(** The object that the conversion of [o] yields. *)
Definition converted {Doc T : Type}
    (FromUnstructured : Doc → T → T * option error) (zero : T)
    (o : Unstructured Doc) : T :=
  fst (FromUnstructured (UnstructuredContent o) zero).

Definition route_item : Unstructured (list (string * string)) :=
  {| UnstructuredContent := [("name", "my-route"); ("kind", "HTTPRoute")];
     GetUID := "uid-3" |}.

(** A newer document under the UID of [good_item]. *)
Definition newer_item : Unstructured (list (string * string)) :=
  {| UnstructuredContent := [("name", "my-gateway"); ("kind", "Gateway-v2")];
     GetUID := "uid-1" |}.

(** What an option sets, if it sets it. *)
Definition option_label {BuilderFunc : Type}
    (f : RunnableBuilderOption (BuilderFunc := BuilderFunc)) : option string :=
  match f with FilterResourcesByLabel selector => Some selector | _ => None end.

Definition option_field {BuilderFunc : Type}
    (f : RunnableBuilderOption (BuilderFunc := BuilderFunc)) : option string :=
  match f with FilterResourcesByField selector => Some selector | _ => None end.

Definition option_builder {BuilderFunc : Type}
    (f : RunnableBuilderOption (BuilderFunc := BuilderFunc))
    : option BuilderFunc :=
  match f with Builder builder => Some builder | _ => None end.

(** The store with [obj] stored under [uid] in kind [gk]. *)
Definition Store_upsert (objs : Store) (gk : GroupKind) (uid : string)
    (obj : RuntimeObject) : Store :=
  <[gk := <[uid := obj]> (Store_index objs gk)]> objs.

(** The target references of a security policy: the list, then the single
    reference when there is one. *)
Definition SecurityPolicy_refs (sp : eg_SecurityPolicy)
    : list gw_LocalPolicyTargetReferenceWithSectionName :=
  let targetReferences :=
    SecurityPolicySpec_PolicyTargetReferences (SecurityPolicy_Spec sp) in
  (PolicyTargetReferences_TargetRefs targetReferences
   ++ option_list (PolicyTargetReferences_TargetRef targetReferences))%list.

(** The security policy [sp] targets the gateway [g]: they share a
    namespace and a reference of [sp], of the Gateway API group and of kind
    [kind], has the name of [g]. *)
Definition targets_gateway (kind : string) (sp : eg_SecurityPolicy)
    (g : gw_Gateway) : Prop :=
  meta_namespace (gw_Gateway_meta g) = meta_namespace (SecurityPolicy_meta sp)
  ∧ ∃ ref, ref ∈ SecurityPolicy_refs sp
           ∧ lref_Group (sref_LocalPolicyTargetReference ref) = gwapiv1_Group
           ∧ lref_Kind (sref_LocalPolicyTargetReference ref) = kind
           ∧ lref_Name (sref_LocalPolicyTargetReference ref)
             = meta_name (gw_Gateway_meta g).

Definition other_gateway : gw_Gateway :=
  {| gw_Gateway_meta :=
       {| meta_gvk := gvk_v1 "Gateway"; meta_namespace := "other-namespace";
          meta_name := "my-gateway" |};
     gw_Gateway_GatewayClassName := "my-gateway-class";
     gw_Gateway_Listeners := [] |}.

(** Every rule of the policy is, on [path], the rule of the effective
    policy. *)
Definition path_enforced {Path Rule : Type}
    (effective_rule : Path → string → Rule) (DeepEqual : Rule → Rule → bool)
    (rules : gmap string Rule) (path : Path) : Prop :=
  ∀ k v, rules !! k = Some v → DeepEqual (effective_rule path k) v = true.

End fixtures.

Import machinery controller samples.
Import reconcilers fixtures.

(** ** Strings *)

Lemma append_cons (x : Ascii.ascii) (a b : string) :
  String x a +:+ b = String x (a +:+ b).
Proof. reflexivity. Qed.

Lemma append_assoc (a b c : string) : (a +:+ b) +:+ c = a +:+ (b +:+ c).
Proof.
  induction a as [|x a IH]; [reflexivity |].
  by rewrite !append_cons, IH.
Qed.

Lemma append_length (a b : string) :
  String.length (a +:+ b) = String.length a + String.length b.
Proof.
  induction a as [|x a IH]; [reflexivity |].
  rewrite append_cons. simpl. by rewrite IH.
Qed.

Lemma append_nonempty_neq (a b : string) : b ≠ "" → a +:+ b ≠ a.
Proof.
  intros Hb Heq. apply (f_equal String.length) in Heq.
  rewrite append_length in Heq. destruct b; [done | simpl in Heq; lia].
Qed.

Lemma namespacedSectionName_eq (namespace sectionName : string) :
  namespacedSectionName namespace sectionName
  = namespace +:+ "#" +:+ sectionName.
Proof. reflexivity. Qed.

Lemma namespacedSectionName_neq (namespace sectionName : string) :
  namespacedSectionName namespace sectionName ≠ namespace.
Proof. rewrite namespacedSectionName_eq. by apply append_nonempty_neq. Qed.

(** ** Locators of expanded sub-resources *)

(** C1. The locator of an expanded sub-resource node (a Listener of a
    Gateway, an HTTPRouteRule of an HTTPRoute, a ServicePort of a Service)
    is the locator of its parent, then the separator ['#'], then the name
    of the sub-resource. *)
Theorem expanded_node_GetURL
    (Locator : GroupVersionKind → string → string → string)
    (l : Listener) (g : Gateway) (r : HTTPRouteRule) (h : HTTPRoute)
    (p : ServicePort) (s : Service) :
  Listener_Gateway l = Some g →
  HTTPRouteRule_HTTPRoute r = Some h →
  ServicePort_Service p = Some s →
  Listener_GetURL Locator l
    = Some (Gateway_GetURL Locator g +:+ "#"
            +:+ gw_Listener_Name (Listener_obj l))
  ∧ HTTPRouteRule_GetURL Locator r
    = Some (HTTPRoute_GetURL Locator h +:+ "#" +:+ HTTPRouteRule_Name r)
  ∧ ServicePort_GetURL Locator p
    = Some (Service_GetURL Locator s +:+ "#"
            +:+ core_ServicePort_Name (ServicePort_obj p)).
Proof.
  intros Hl Hr Hp.
  unfold Listener_GetURL, HTTPRouteRule_GetURL, ServicePort_GetURL.
  rewrite Hl, Hr, Hp. by repeat split.
Qed.

Lemma expanded_node_GetURL_witness :
  Listener_GetURL sample_Locator my_listener
    = Some "gateway:my-namespace/my-gateway#my-listener"
  ∧ HTTPRouteRule_GetURL sample_Locator my_rule
    = Some "httproute:my-namespace/my-http-route#rule-1"
  ∧ ServicePort_GetURL sample_Locator my_port
    = Some "service:my-namespace/my-service#http".
Proof.
  destruct (expanded_node_GetURL sample_Locator my_listener my_gateway
              my_rule my_http_route my_port my_service
              eq_refl eq_refl eq_refl) as (Hl & Hr & Hp).
  rewrite Hl, Hr, Hp. repeat split; reflexivity.
Defined.

(** ** Target references *)

Lemma section_reference_GetURL_of_parent
    (Locator : GroupVersionKind → string → string → string)
    (prefix : string → string → string → string)
    {P : Type} `{machinery.Object P}
    (t : LocalPolicyTargetReferenceWithSectionName) (parent : P)
    (sectionName : string) :
  (∀ gvk namespace name,
     Locator gvk namespace name
     = prefix (Group gvk) (Kind gvk) namespace +:+ name) →
  sref_section t = Some sectionName →
  names_object t parent →
  LocalPolicyTargetReferenceWithSectionName_GetURL Locator t
  = namespacedSectionName (UrlFromObject Locator parent) sectionName.
Proof.
  intros HLocator Hsection (Hgroup & Hkind & Hns & Hname).
  unfold LocalPolicyTargetReferenceWithSectionName_GetURL, UrlFromObject.
  rewrite !HLocator, Hgroup, Hkind, Hns, Hname. simpl.
  unfold LocalPolicyTargetReferenceWithSectionName_GetName.
  rewrite Hsection, !namespacedSectionName_eq.
  by rewrite append_assoc.
Qed.

(** C2. A reference with a section name is named after its target, then
    ['#'], then the section name, and a reference without one is named
    after its target alone.  When the locator of an object is a prefix
    fixed by group, kind and namespace followed by the name, the locator of
    a reference with a section name is the locator of the expanded
    sub-resource of that name under the object the reference names, and
    differs from the locator of that object. *)
Theorem section_reference_GetName_GetURL
    (Locator : GroupVersionKind → string → string → string)
    (t : LocalPolicyTargetReferenceWithSectionName) :
  (sref_section t = None →
   LocalPolicyTargetReferenceWithSectionName_GetName t
   = lref_Name (sref_local t))
  ∧ (∀ sectionName, sref_section t = Some sectionName →
     LocalPolicyTargetReferenceWithSectionName_GetName t
     = lref_Name (sref_local t) +:+ "#" +:+ sectionName)
  ∧ (∀ prefix sectionName,
     (∀ gvk namespace name,
        Locator gvk namespace name
        = prefix (Group gvk) (Kind gvk) namespace +:+ name) →
     sref_section t = Some sectionName →
     (∀ l g, Listener_Gateway l = Some g → names_object t g →
        gw_Listener_Name (Listener_obj l) = sectionName →
        Listener_GetURL Locator l
        = Some (LocalPolicyTargetReferenceWithSectionName_GetURL Locator t)
        ∧ LocalPolicyTargetReferenceWithSectionName_GetURL Locator t
          ≠ Gateway_GetURL Locator g)
     ∧ (∀ r h, HTTPRouteRule_HTTPRoute r = Some h → names_object t h →
        HTTPRouteRule_Name r = sectionName →
        HTTPRouteRule_GetURL Locator r
        = Some (LocalPolicyTargetReferenceWithSectionName_GetURL Locator t)
        ∧ LocalPolicyTargetReferenceWithSectionName_GetURL Locator t
          ≠ HTTPRoute_GetURL Locator h)
     ∧ (∀ p s, ServicePort_Service p = Some s → names_object t s →
        core_ServicePort_Name (ServicePort_obj p) = sectionName →
        ServicePort_GetURL Locator p
        = Some (LocalPolicyTargetReferenceWithSectionName_GetURL Locator t)
        ∧ LocalPolicyTargetReferenceWithSectionName_GetURL Locator t
          ≠ Service_GetURL Locator s)).
Proof.
  split; [|split].
  - intros Hnil. unfold LocalPolicyTargetReferenceWithSectionName_GetName.
    by rewrite Hnil.
  - intros sectionName Hsome.
    unfold LocalPolicyTargetReferenceWithSectionName_GetName.
    by rewrite Hsome.
  - intros prefix sectionName HLocator Hsome.
    split; [|split].
    + intros l g Hparent Hnames Hname.
      rewrite (section_reference_GetURL_of_parent Locator prefix t g sectionName)
        by done.
      split; [|apply namespacedSectionName_neq].
      unfold Listener_GetURL. by rewrite Hparent, Hname.
    + intros r h Hparent Hnames Hname.
      rewrite (section_reference_GetURL_of_parent Locator prefix t h sectionName)
        by done.
      split; [|apply namespacedSectionName_neq].
      unfold HTTPRouteRule_GetURL. by rewrite Hparent, Hname.
    + intros p s Hparent Hnames Hname.
      rewrite (section_reference_GetURL_of_parent Locator prefix t s sectionName)
        by done.
      split; [|apply namespacedSectionName_neq].
      unfold ServicePort_GetURL. by rewrite Hparent, Hname.
Qed.

Lemma sample_Locator_prefix (gvk : GroupVersionKind) (namespace name : string) :
  sample_Locator gvk namespace name
  = sample_prefix (Group gvk) (Kind gvk) namespace +:+ name.
Proof. reflexivity. Qed.

Lemma section_reference_GetName_GetURL_witness :
  LocalPolicyTargetReferenceWithSectionName_GetName service_ref = "my-service"
  ∧ LocalPolicyTargetReferenceWithSectionName_GetName port_ref
    = "my-service#http"
  ∧ (Listener_GetURL sample_Locator my_listener
     = Some (LocalPolicyTargetReferenceWithSectionName_GetURL
               sample_Locator listener_ref)
     ∧ LocalPolicyTargetReferenceWithSectionName_GetURL
         sample_Locator listener_ref
       ≠ Gateway_GetURL sample_Locator my_gateway)
  ∧ (HTTPRouteRule_GetURL sample_Locator my_rule
     = Some (LocalPolicyTargetReferenceWithSectionName_GetURL
               sample_Locator rule_ref)
     ∧ LocalPolicyTargetReferenceWithSectionName_GetURL sample_Locator rule_ref
       ≠ HTTPRoute_GetURL sample_Locator my_http_route)
  ∧ (ServicePort_GetURL sample_Locator my_port
     = Some (LocalPolicyTargetReferenceWithSectionName_GetURL
               sample_Locator port_ref)
     ∧ LocalPolicyTargetReferenceWithSectionName_GetURL sample_Locator port_ref
       ≠ Service_GetURL sample_Locator my_service).
Proof.
  pose proof (section_reference_GetName_GetURL sample_Locator service_ref)
    as (Hnil & _ & _).
  pose proof (section_reference_GetName_GetURL sample_Locator port_ref)
    as (_ & Hport_name & Hport).
  pose proof (section_reference_GetName_GetURL sample_Locator listener_ref)
    as (_ & _ & Hlistener).
  pose proof (section_reference_GetName_GetURL sample_Locator rule_ref)
    as (_ & _ & Hrule).
  split; [exact (Hnil eq_refl) |].
  split; [exact (Hport_name "http" eq_refl) |].
  split; [|split].
  - destruct (Hlistener sample_prefix "my-listener" sample_Locator_prefix eq_refl)
      as (Hl & _ & _).
    apply (Hl my_listener my_gateway); [reflexivity | | reflexivity].
    repeat split; reflexivity.
  - destruct (Hrule sample_prefix "rule-1" sample_Locator_prefix eq_refl)
      as (_ & Hr & _).
    apply (Hr my_rule my_http_route); [reflexivity | | reflexivity].
    repeat split; reflexivity.
  - destruct (Hport sample_prefix "http" sample_Locator_prefix eq_refl)
      as (_ & _ & Hp).
    apply (Hp my_port my_service); [reflexivity | | reflexivity].
    repeat split; reflexivity.
Defined.

(** C8. A namespaced reference without a namespace of its own is in the
    namespace of the policy that owns it, one with a namespace is in that
    namespace, and a local reference is always in the namespace of its
    policy. *)
Theorem target_reference_GetNamespace
    (t : NamespacedPolicyTargetReference) (u : LocalPolicyTargetReference) :
  (nref_Namespace (NamespacedPolicyTargetReference_ref t) = None →
   NamespacedPolicyTargetReference_GetNamespace t
   = NamespacedPolicyTargetReference_PolicyNamespace t)
  ∧ (∀ namespace,
     nref_Namespace (NamespacedPolicyTargetReference_ref t) = Some namespace →
     NamespacedPolicyTargetReference_GetNamespace t = namespace)
  ∧ LocalPolicyTargetReference_GetNamespace u
    = LocalPolicyTargetReference_PolicyNamespace u.
Proof.
  unfold NamespacedPolicyTargetReference_GetNamespace.
  split; [|split].
  - by intros ->.
  - by intros namespace ->.
  - reflexivity.
Qed.

Lemma target_reference_GetNamespace_witness :
  NamespacedPolicyTargetReference_GetNamespace (namespaced_ref None)
  = "policy-namespace"
  ∧ NamespacedPolicyTargetReference_GetNamespace
      (namespaced_ref (Some "gateway-namespace"))
    = "gateway-namespace"
  ∧ LocalPolicyTargetReference_GetNamespace local_ref = "policy-namespace".
Proof.
  pose proof (target_reference_GetNamespace (namespaced_ref None) local_ref)
    as (Hnil & _ & Hlocal).
  pose proof (target_reference_GetNamespace
                (namespaced_ref (Some "gateway-namespace")) local_ref)
    as (_ & Hsome & _).
  split; [exact (Hnil eq_refl) |].
  split; [exact (Hsome "gateway-namespace" eq_refl) | exact Hlocal].
Defined.

(** Inside the method the assignments do take effect, on the copy. *)
Lemma SetGroupVersionKind_body_sets (gvk : GroupVersionKind)
    (t : NamespacedPolicyTargetReference) (u : LocalPolicyTargetReference)
    (v : LocalPolicyTargetReferenceWithSectionName) :
  let expected := {| Group := Group gvk; Version := ""; Kind := Kind gvk |} in
  NamespacedPolicyTargetReference_GroupVersionKind
    (snd (call_on_copy
            (NamespacedPolicyTargetReference_SetGroupVersionKind_body gvk) t))
  = expected
  ∧ LocalPolicyTargetReference_GroupVersionKind
      (snd (call_on_copy
              (LocalPolicyTargetReference_SetGroupVersionKind_body gvk) u))
    = expected
  ∧ LocalPolicyTargetReferenceWithSectionName_GroupVersionKind
      (snd (call_on_copy
              (LocalPolicyTargetReferenceWithSectionName_SetGroupVersionKind_body
                 gvk) v))
    = expected.
Proof. by repeat split. Qed.

(** C9. [SetGroupVersionKind] on a target reference of any of the three
    types leaves the caller's reference as it was, and with it the result
    of [GroupVersionKind]. *)
Theorem SetGroupVersionKind_no_effect (gvk : GroupVersionKind)
    (t : NamespacedPolicyTargetReference) (u : LocalPolicyTargetReference)
    (v : LocalPolicyTargetReferenceWithSectionName) :
  (NamespacedPolicyTargetReference_SetGroupVersionKind t gvk = t
   ∧ NamespacedPolicyTargetReference_GroupVersionKind
       (NamespacedPolicyTargetReference_SetGroupVersionKind t gvk)
     = NamespacedPolicyTargetReference_GroupVersionKind t)
  ∧ (LocalPolicyTargetReference_SetGroupVersionKind u gvk = u
     ∧ LocalPolicyTargetReference_GroupVersionKind
         (LocalPolicyTargetReference_SetGroupVersionKind u gvk)
       = LocalPolicyTargetReference_GroupVersionKind u)
  ∧ (LocalPolicyTargetReferenceWithSectionName_SetGroupVersionKind v gvk = v
     ∧ LocalPolicyTargetReferenceWithSectionName_GroupVersionKind
         (LocalPolicyTargetReferenceWithSectionName_SetGroupVersionKind v gvk)
       = LocalPolicyTargetReferenceWithSectionName_GroupVersionKind v).
Proof.
  unfold NamespacedPolicyTargetReference_SetGroupVersionKind,
    LocalPolicyTargetReference_SetGroupVersionKind,
    LocalPolicyTargetReferenceWithSectionName_SetGroupVersionKind,
    call_on_copy.
  simpl. by repeat split.
Qed.

(** ** Merging BackendTLSPolicies *)

(** The strategy is the same for every BackendTLSPolicy. *)
Lemma BackendTLSPolicy_GetMergeStrategy_uniform
    (DefaultMergeStrategy : MergeStrategy) (p q : BackendTLSPolicy) :
  BackendTLSPolicy_GetMergeStrategy DefaultMergeStrategy p
  = BackendTLSPolicy_GetMergeStrategy DefaultMergeStrategy q.
Proof. reflexivity. Qed.

(** C3, as stated, fails: merging with a policy of another kind does not
    apply the strategy.  With a strategy that keeps its first argument, the
    strategy applied to an AuthPolicy and a BackendTLSPolicy yields the
    AuthPolicy, while [Merge] returns the BackendTLSPolicy. *)
Lemma BackendTLSPolicy_Merge_ignores_other_kind :
  ¬ (∀ (DefaultMergeStrategy : MergeStrategy) (p : BackendTLSPolicy)
       (other : Policy),
       BackendTLSPolicy_Merge DefaultMergeStrategy p other
       = BackendTLSPolicy_GetMergeStrategy DefaultMergeStrategy p
           other (PolicyBackendTLS p)).
Proof.
  intros Hmerge.
  specialize (Hmerge keep_source (tls_policy "tls" "example.com") auth_policy).
  discriminate Hmerge.
Qed.

(** C3, amended.  Merging a BackendTLSPolicy [p] with another
    BackendTLSPolicy applies the merge strategy of the kind, the same for
    all BackendTLSPolicies, to the other policy and [p]; merging with a
    policy of another kind returns [p], whatever the strategy. *)
Theorem BackendTLSPolicy_Merge_spec
    (DefaultMergeStrategy : MergeStrategy) (p : BackendTLSPolicy)
    (other : Policy) :
  (∀ source, other = PolicyBackendTLS source →
     BackendTLSPolicy_Merge DefaultMergeStrategy p other
     = BackendTLSPolicy_GetMergeStrategy DefaultMergeStrategy p
         other (PolicyBackendTLS p)
     ∧ BackendTLSPolicy_GetMergeStrategy DefaultMergeStrategy source
       = BackendTLSPolicy_GetMergeStrategy DefaultMergeStrategy p)
  ∧ (∀ typeName m, other = PolicyOfOtherKind typeName m →
     ∀ strategy : MergeStrategy,
       BackendTLSPolicy_Merge strategy p other = PolicyBackendTLS p).
Proof.
  split.
  - by intros source ->.
  - by intros typeName m ->.
Qed.

Lemma BackendTLSPolicy_Merge_spec_witness :
  BackendTLSPolicy_Merge keep_source (tls_policy "tls" "example.com")
    (PolicyBackendTLS (tls_policy "tls-2" "example.org"))
  = PolicyBackendTLS (tls_policy "tls-2" "example.org")
  ∧ BackendTLSPolicy_Merge keep_source (tls_policy "tls" "example.com")
      auth_policy
    = PolicyBackendTLS (tls_policy "tls" "example.com").
Proof.
  split.
  - destruct (BackendTLSPolicy_Merge_spec keep_source
                (tls_policy "tls" "example.com")
                (PolicyBackendTLS (tls_policy "tls-2" "example.org")))
      as (Hsame & _).
    destruct (Hsame (tls_policy "tls-2" "example.org") eq_refl) as (-> & _).
    reflexivity.
  - destruct (BackendTLSPolicy_Merge_spec keep_source
                (tls_policy "tls" "example.com") auth_policy)
      as (_ & Hother).
    exact (Hother _ _ eq_refl keep_source).
Defined.

(** ** Restructure *)

(** C6. [Restructure] returns an error, and no object, when its argument
    is not an unstructured document and when the conversion fails (whatever
    the converter left in the object it was filling); it returns an object
    only when the argument is an unstructured document whose conversion
    succeeded, and then the object is the converted one and there is no
    error. *)
Theorem Restructure_error_or_converted {Doc T : Type}
    (FromUnstructured : Doc → T → T * option error) (zero : T)
    (obj : any Doc) :
  (∀ typeName, obj = AnyOfOtherType typeName →
     Restructure FromUnstructured zero obj
     = (None, Some ("unexpected object type: " +:+ typeName)))
  ∧ (∀ u o e, obj = AnyUnstructured u →
     FromUnstructured (UnstructuredContent u) zero = (o, Some e) →
     Restructure FromUnstructured zero obj = (None, Some e))
  ∧ (∀ v, fst (Restructure FromUnstructured zero obj) = Some v →
     snd (Restructure FromUnstructured zero obj) = None
     ∧ ∃ u, obj = AnyUnstructured u
            ∧ FromUnstructured (UnstructuredContent u) zero = (v, None))
  ∧ (fst (Restructure FromUnstructured zero obj) = None ↔
     is_Some (snd (Restructure FromUnstructured zero obj))).
Proof.
  split; [|split; [|split]].
  - by intros typeName ->.
  - intros u o e -> Hconv. simpl. by rewrite Hconv.
  - intros v. destruct obj as [u|typeName]; simpl; [|done].
    destruct (FromUnstructured (UnstructuredContent u) zero) as [o [e|]] eqn:Hconv;
      simpl; [done |].
    intros [= ->]. split; [done |]. by exists u.
  - destruct obj as [u|typeName]; simpl.
    + destruct (FromUnstructured (UnstructuredContent u) zero) as [o [e|]];
        simpl; split; try done; by intros [? ?].
    + split; [by eexists | done].
Qed.

Lemma Restructure_error_or_converted_witness :
  Restructure Typed_FromUnstructured Typed_zero (AnyOfOtherType "*v1.Pod")
  = (None, Some "unexpected object type: *v1.Pod")
  ∧ Restructure Typed_FromUnstructured Typed_zero (AnyUnstructured bad_item)
    = (None, Some "kind: required")
  ∧ Typed_FromUnstructured (UnstructuredContent good_item) Typed_zero
    = ({| Typed_name := "my-gateway"; Typed_kind := "Gateway" |}, None).
Proof.
  split; [|split].
  - destruct (Restructure_error_or_converted Typed_FromUnstructured Typed_zero
                (AnyOfOtherType "*v1.Pod")) as (Hother & _).
    exact (Hother "*v1.Pod" eq_refl).
  - destruct (Restructure_error_or_converted Typed_FromUnstructured Typed_zero
                (AnyUnstructured bad_item)) as (_ & Hfail & _).
    exact (Hfail bad_item
             {| Typed_name := "broken"; Typed_kind := "" |} "kind: required"
             eq_refl eq_refl).
  - destruct (Restructure_error_or_converted Typed_FromUnstructured Typed_zero
                (AnyUnstructured good_item)) as (_ & _ & Hvalue & _).
    destruct (Hvalue {| Typed_name := "my-gateway"; Typed_kind := "Gateway" |}
                eq_refl) as (_ & u & [= <-] & Hconv).
    exact Hconv.
Defined.

(** ** The StateReconciler source *)

Section StateReconcilerFacts.
Context {Doc T : Type}.
Variable FromUnstructured : Doc → T → T * option error.
Variable zero : T.

#[local] Abbreviation conversion_fails := (conversion_fails FromUnstructured zero).

Lemma listFunc_transform_failed (o : Unstructured Doc) :
  conversion_fails o →
  listFunc_transform FromUnstructured zero o = ("", None).
Proof.
  unfold conversion_fails, listFunc_transform, Restructure.
  destruct (FromUnstructured (UnstructuredContent o) zero) as [v [e|]];
    simpl; [done | by intros [? ?]].
Qed.

Lemma listFunc_transform_converted (o : Unstructured Doc) :
  ¬ conversion_fails o →
  ∃ v, listFunc_transform FromUnstructured zero o = (GetUID o, Some v).
Proof.
  unfold conversion_fails, listFunc_transform, Restructure.
  destruct (FromUnstructured (UnstructuredContent o) zero) as [v [e|]];
    simpl; [by intros [] | by exists v].
Qed.

Lemma SliceToMap_failed_entry (items : list (Unstructured Doc))
    (acc : gmap string (option T)) :
  (acc !! "" = Some None ∨ ∃ o, o ∈ items ∧ conversion_fails o) →
  (∀ o, o ∈ items → ¬ conversion_fails o → GetUID o ≠ "") →
  foldl (λ result item,
           let '(k, v) := listFunc_transform FromUnstructured zero item in
           <[k:=v]> result) acc items !! "" = Some None.
Proof.
  revert acc. induction items as [|item items IH]; intros acc Hsrc Huid.
  - destruct Hsrc as [Hacc | (o & Ho & _)]; [done | by inversion Ho].
  - simpl. apply IH; [| intros o Ho; apply Huid; by right].
    destruct (decide (is_Some (snd (FromUnstructured
                                   (UnstructuredContent item) zero))))
      as [Hfail | Hok].
    + left. rewrite (listFunc_transform_failed item Hfail).
      by rewrite lookup_insert_eq.
    + destruct (listFunc_transform_converted item Hok) as (v & ->).
      assert (GetUID item ≠ "") as Hne by (apply Huid; [by left | done]).
      rewrite lookup_insert_ne by done.
      destruct Hsrc as [Hacc | (o & Ho & Hfail)]; [by left |].
      apply elem_of_cons in Ho as [-> | Ho]; [done |].
      right. by exists o.
Qed.
(** Whenever the conversion of a listed document fails, and no converted
    document has the empty UID, the store view holds the empty key, bound
    to the [nil] object. *)
Lemma listFunc_failed_conversion_entry (group kind : string)
    (items : list (Unstructured Doc)) (o : Unstructured Doc) :
  o ∈ items → conversion_fails o →
  (∀ o', o' ∈ items → ¬ conversion_fails o' → GetUID o' ≠ "") →
  snd (listFunc FromUnstructured zero group kind (ListItems items)) !! ""
  = Some None.
Proof.
  intros Ho Hfail Huid. unfold listFunc.
  destruct items as [|item items]; [by inversion Ho |].
  change (Nat.eqb (length (item :: items)) 0) with false. cbv iota.
  unfold snd, SliceToMap.
  apply SliceToMap_failed_entry; [right; by exists o | done].
Qed.
End StateReconcilerFacts.

(** C4, at a listing of two documents, the second of which cannot be
    converted: the store view binds the UID of the first to its converted
    object, and also holds an entry for the second, under the empty key and
    with the [nil] object, although no listed document has the empty UID. *)
Theorem listFunc_keeps_failed_conversion :
  let view :=
    snd (listFunc Typed_FromUnstructured Typed_zero
           "gateway.networking.k8s.io" "Gateway"
           (ListItems [good_item; bad_item])) in
  conversion_fails Typed_FromUnstructured Typed_zero bad_item
  ∧ view !! "uid-1"
    = Some (Some {| Typed_name := "my-gateway"; Typed_kind := "Gateway" |})
  ∧ view !! "" = Some None
  ∧ size view = 2
  ∧ ¬ (∃ o, o ∈ [good_item; bad_item] ∧ GetUID o = "").
Proof.
  cbv zeta. split; [by eexists |].
  split; [reflexivity |].
  split; [reflexivity |].
  split; [reflexivity |].
  intros (o & Ho & Huid).
  apply elem_of_cons in Ho as [-> | Ho]; [discriminate Huid |].
  apply elem_of_cons in Ho as [-> | Ho]; [discriminate Huid |].
  by inversion Ho.
Qed.

Lemma stateReconciler_Run_unchanged {ListFunc : Type}
    (r : stateReconciler ListFunc) (c : Controller ListFunc) :
  stateReconciler_Run r c = c.
Proof.
  destruct c as [fs]. unfold stateReconciler_Run, go_append. simpl.
  by rewrite app_nil_r.
Qed.

(** C5, on the code: [Run] leaves the list functions of the controller as
    they were, so that on a controller with none registered the list
    function of the reconciler is not among them after [Run]. *)
Theorem stateReconciler_Run_registers_nothing {ListFunc : Type}
    (r : stateReconciler ListFunc) :
  (∀ c, Controller_listFuncs (stateReconciler_Run r c)
        = Controller_listFuncs c)
  ∧ stateReconciler_listFunc r
    ∉ Controller_listFuncs
        (stateReconciler_Run r {| Controller_listFuncs := [] |}).
Proof.
  split.
  - intros c. by rewrite stateReconciler_Run_unchanged.
  - rewrite stateReconciler_Run_unchanged. simpl. by intros Hin; inversion Hin.
Qed.

(** C10. [HasSynced] is true for every StateReconciler and in every state
    of the controller, also when no listing has taken place. *)
Theorem stateReconciler_HasSynced_true {ListFunc : Type}
    (r : stateReconciler ListFunc) (c : Controller ListFunc) :
  stateReconciler_HasSynced r c = true
  ∧ stateReconciler_HasSynced r {| Controller_listFuncs := [] |} = true.
Proof. by split. Qed.

(** ** The topology builder *)

Lemma elem_of_Values {V : Type} (m : gmap string V) (v : V) :
  v ∈ Values m ↔ ∃ k, m !! k = Some v.
Proof.
  unfold Values. rewrite list_elem_of_fmap. split.
  - intros ([k v'] & -> & Hin). exists k. by apply elem_of_map_to_list.
  - intros (k & Hk). exists (k, v). split; [done |].
    by apply elem_of_map_to_list.
Qed.

Lemma elem_of_FilterMap_Values {V R : Type} (f : V → option R)
    (m : gmap string V) (r : R) :
  r ∈ FilterMap f (Values m) ↔ ∃ k v, m !! k = Some v ∧ f v = Some r.
Proof.
  unfold FilterMap. rewrite list_elem_of_omap. split.
  - intros (v & Hv & Hf). apply elem_of_Values in Hv as (k & Hk). eauto.
  - intros (k & v & Hk & Hf). exists v. split; [|done].
    apply elem_of_Values. eauto.
Qed.

Lemma Values_delete {V : Type} (m : gmap string V) (k : string) (v : V) :
  m !! k = Some v → v :: Values (delete k m) ≡ₚ Values m.
Proof.
  intros Hk. unfold Values.
  by rewrite <- (map_to_list_delete m k v Hk).
Qed.

Lemma FilterMap_Values_delete {V R : Type} (f : V → option R)
    (m : gmap string V) (k : string) (v : V) :
  m !! k = Some v → f v = None →
  FilterMap f (Values (delete k m)) ≡ₚ FilterMap f (Values m).
Proof.
  intros Hk Hf. unfold FilterMap.
  rewrite <- (Values_delete m k v Hk). simpl. by rewrite Hf.
Qed.

Lemma FilterMap_total {A R : Type} (f : A → option R) (g : A → R)
    (l : list A) :
  (∀ x, f x = Some (g x)) → FilterMap f l = g <$> l.
Proof.
  intros Hf. unfold FilterMap.
  induction l as [|x l IH]; [done |].
  csimpl. by rewrite Hf, IH.
Qed.

Lemma Store_index_without (objs : Store) (gk gk' : GroupKind) (uid : string) :
  Store_index (Store_without objs gk uid) gk'
  = if decide (gk = gk') then delete uid (Store_index objs gk)
    else Store_index objs gk'.
Proof.
  unfold Store_without, Store_index at 1.
  rewrite lookup_insert. by destruct (decide (gk = gk')).
Qed.

(** Taking an entry out of the store leaves the candidates of an assertion
    that the entry fails as they were, up to their order. *)
Lemma FilterMap_Store_without {R : Type} (f : RuntimeObject → option R)
    (objs : Store) (gk gk' : GroupKind) (uid : string) (obj : RuntimeObject) :
  Store_index objs gk !! uid = Some obj → f obj = None →
  FilterMap f (Values (Store_index (Store_without objs gk uid) gk'))
  ≡ₚ FilterMap f (Values (Store_index objs gk')).
Proof.
  intros Hentry Hf. rewrite Store_index_without.
  destruct (decide (gk = gk')) as [<- |]; [|done].
  by apply (FilterMap_Values_delete f _ uid obj).
Qed.

Lemma foldl_go_append {A B : Type} (f : B → A) (l : list B) (acc : list A) :
  foldl (λ opts x, go_append opts [f x]) acc l = (acc ++ (f <$> l))%list.
Proof.
  revert acc. induction l as [|x l IH]; intros acc; simpl.
  - by rewrite app_nil_r.
  - rewrite IH. unfold go_append. by rewrite <- app_assoc.
Qed.

Lemma Build_opts_eq {LinkFunc : Type}
    (t : gatewayAPITopologyBuilder (LinkFunc := LinkFunc)) (objs : Store) :
  Build_opts t objs
  = ([ WithGatewayClasses (Build_gatewayClasses objs);
      WithGateways (Build_gateways objs);
      WithHTTPRoutes (Build_httpRoutes objs);
      WithServices (Build_services objs);
      ExpandGatewayListeners;
      ExpandHTTPRouteRules;
      ExpandServicePorts;
      WithGatewayAPITopologyLinks (Build_linkFuncs t objs) ]
    ++ ((λ policyKind,
           WithGatewayAPITopologyPolicies (Build_policies objs policyKind))
          <$> policyKinds t)
    ++ ((λ objectKind,
           WithGatewayAPITopologyObjects (Build_objects objs objectKind))
          <$> objectKinds t))%list.
Proof.
  unfold Build_opts. cbv zeta.
  rewrite !foldl_go_append. by rewrite <- app_assoc.
Qed.

(** C7, as stated, fails for the object kinds: an entry of an object kind
    that is not a [machinery.Object] (here a Gateway held under the
    ConfigMap kind) is not left out of the candidates; it is a candidate,
    wrapped. *)
Lemma Build_objects_keeps_other_types :
  ¬ (∀ (objs : Store) (gk : GroupKind) (uid : string) (obj : RuntimeObject),
       Store_index objs gk !! uid = Some obj →
       as_Object obj = None →
       Build_objects (Store_without objs gk uid) gk ≡ₚ Build_objects objs gk).
Proof.
  intros Hdropped.
  assert (Store_index config_store ConfigMap_kind !! "uid-cm"
          = Some (RO_Gateway (Gateway_obj my_gateway))) as Hentry
    by (vm_compute; reflexivity).
  specialize (Hdropped config_store ConfigMap_kind "uid-cm" _ Hentry eq_refl).
  apply Permutation_length in Hdropped.
  vm_compute in Hdropped. discriminate Hdropped.
Qed.

(** C7, amended.  [Build] returns a topology for every store: the one that
    [NewGatewayAPITopology] makes of the candidates filtered from the store
    by group and kind.  The GatewayClass, Gateway, HTTPRoute, Service and
    policy candidates are exactly the store entries of their kind that have
    the asserted dynamic type, and an entry of another dynamic type is left
    out of them: the typed candidates of a store are, up to their order,
    those of the store without that entry.  The object candidates are all
    the entries of the object kinds, each as it is when it is a
    [machinery.Object] and wrapped otherwise. *)
Theorem Build_filters_store {LinkFunc Topology : Type}
    (NewGatewayAPITopology :
       list (GatewayAPITopologyOptionsFunc (LinkFunc := LinkFunc)) → Topology)
    (t : gatewayAPITopologyBuilder) (objs : Store) :
  Build NewGatewayAPITopology t objs
  = NewGatewayAPITopology
      ([ WithGatewayClasses (Build_gatewayClasses objs);
         WithGateways (Build_gateways objs);
         WithHTTPRoutes (Build_httpRoutes objs);
         WithServices (Build_services objs);
         ExpandGatewayListeners;
         ExpandHTTPRouteRules;
         ExpandServicePorts;
         WithGatewayAPITopologyLinks (Build_linkFuncs t objs) ]
       ++ ((λ policyKind,
              WithGatewayAPITopologyPolicies (Build_policies objs policyKind))
             <$> policyKinds t)
       ++ ((λ objectKind,
              WithGatewayAPITopologyObjects (Build_objects objs objectKind))
             <$> objectKinds t))%list
  ∧ (∀ gc, gc ∈ Build_gatewayClasses objs ↔
       ∃ uid, Store_index objs (gwapiv1_Group, "GatewayClass") !! uid
              = Some (RO_GatewayClass gc))
  ∧ (∀ gw, gw ∈ Build_gateways objs ↔
       ∃ uid, Store_index objs (gwapiv1_Group, "Gateway") !! uid
              = Some (RO_Gateway gw))
  ∧ (∀ httpRoute, httpRoute ∈ Build_httpRoutes objs ↔
       ∃ uid, Store_index objs (gwapiv1_Group, "HTTPRoute") !! uid
              = Some (RO_HTTPRoute httpRoute))
  ∧ (∀ service, service ∈ Build_services objs ↔
       ∃ uid, Store_index objs (core_GroupName, "Service") !! uid
              = Some (RO_Service service))
  ∧ (∀ policyKind policy, policy ∈ Build_policies objs policyKind ↔
       ∃ uid, Store_index objs policyKind !! uid = Some (RO_Policy policy))
  ∧ (∀ objectKind,
       Build_objects objs objectKind
       = (λ obj, default (MO_Wrapped {| Object_RuntimeObject := obj |})
                   (as_Object obj))
           <$> Values (Store_index objs objectKind))
  ∧ (∀ gk uid obj, Store_index objs gk !! uid = Some obj →
       (as_GatewayClass obj = None →
        Build_gatewayClasses (Store_without objs gk uid)
        ≡ₚ Build_gatewayClasses objs)
       ∧ (as_Gateway obj = None →
          Build_gateways (Store_without objs gk uid) ≡ₚ Build_gateways objs)
       ∧ (as_HTTPRoute obj = None →
          Build_httpRoutes (Store_without objs gk uid)
          ≡ₚ Build_httpRoutes objs)
       ∧ (as_Service obj = None →
          Build_services (Store_without objs gk uid) ≡ₚ Build_services objs)
       ∧ (as_Policy obj = None → ∀ policyKind,
          Build_policies (Store_without objs gk uid) policyKind
          ≡ₚ Build_policies objs policyKind)).
Proof.
  split; [unfold Build; by rewrite Build_opts_eq |].
  split; [|split; [|split; [|split; [|split; [|split]]]]].
  - intros gc. unfold Build_gatewayClasses.
    rewrite elem_of_FilterMap_Values. split.
    + intros (uid & [] & Hentry & [= <-]); eauto.
    + intros (uid & Hentry). by exists uid, (RO_GatewayClass gc).
  - intros gw. unfold Build_gateways.
    rewrite elem_of_FilterMap_Values. split.
    + intros (uid & [] & Hentry & [= <-]); eauto.
    + intros (uid & Hentry). by exists uid, (RO_Gateway gw).
  - intros httpRoute. unfold Build_httpRoutes.
    rewrite elem_of_FilterMap_Values. split.
    + intros (uid & [] & Hentry & [= <-]); eauto.
    + intros (uid & Hentry). by exists uid, (RO_HTTPRoute httpRoute).
  - intros service. unfold Build_services.
    rewrite elem_of_FilterMap_Values. split.
    + intros (uid & [] & Hentry & [= <-]); eauto.
    + intros (uid & Hentry). by exists uid, (RO_Service service).
  - intros policyKind policy. unfold Build_policies.
    rewrite elem_of_FilterMap_Values. split.
    + intros (uid & [] & Hentry & [= <-]); eauto.
    + intros (uid & Hentry). by exists uid, (RO_Policy policy).
  - intros objectKind. unfold Build_objects.
    apply FilterMap_total. intros obj. unfold object_or_wrapped.
    by destruct (as_Object obj).
  - intros gk uid obj Hentry.
    repeat split; intros Hmismatch; intros;
      by apply (FilterMap_Store_without _ objs gk _ uid obj).
Qed.

Lemma Build_filters_store_witness :
  my_gateway_class ∈ Build_gatewayClasses mixed_store
  ∧ Build_gatewayClasses
      (Store_without mixed_store (gwapiv1_Group, "GatewayClass") "uid-gw")
    ≡ₚ Build_gatewayClasses mixed_store.
Proof.
  destruct (Build_filters_store (LinkFunc := unit) (λ opts, length opts)
              {| policyKinds := []; objectKinds := []; objectLinks := [] |}
              mixed_store)
    as (_ & Hclasses & _ & _ & _ & _ & _ & Hdropped).
  split.
  - apply Hclasses. by exists "uid-gc".
  - destruct (Hdropped (gwapiv1_Group, "GatewayClass") "uid-gw"
                (RO_Gateway (Gateway_obj my_gateway)) eq_refl)
      as (Hgc & _).
    exact (Hgc eq_refl).
Defined.

(** * Further properties of the wrappers *)

(** ** Names of expanded sub-resources *)

(** X1. Whatever the locator scheme, an expanded sub-resource and a
    reference with section name that names its parent and its section
    agree on name and namespace. *)
Theorem expanded_node_GetName_matches_reference
    (t : LocalPolicyTargetReferenceWithSectionName) (sectionName : string) :
  sref_section t = Some sectionName →
  (∀ l g, Listener_Gateway l = Some g → names_object t g →
     gw_Listener_Name (Listener_obj l) = sectionName →
     Listener_GetName l
     = Some (LocalPolicyTargetReferenceWithSectionName_GetName t)
     ∧ Listener_GetNamespace l
       = Some (LocalPolicyTargetReferenceWithSectionName_GetNamespace t))
  ∧ (∀ r h, HTTPRouteRule_HTTPRoute r = Some h → names_object t h →
     HTTPRouteRule_Name r = sectionName →
     HTTPRouteRule_GetName r
     = Some (LocalPolicyTargetReferenceWithSectionName_GetName t)
     ∧ HTTPRouteRule_GetNamespace r
       = Some (LocalPolicyTargetReferenceWithSectionName_GetNamespace t))
  ∧ (∀ p s, ServicePort_Service p = Some s → names_object t s →
     core_ServicePort_Name (ServicePort_obj p) = sectionName →
     ServicePort_GetName p
     = Some (LocalPolicyTargetReferenceWithSectionName_GetName t)
     ∧ ServicePort_GetNamespace p
       = Some (LocalPolicyTargetReferenceWithSectionName_GetNamespace t)).
Proof.
  intros Hsection.
  unfold LocalPolicyTargetReferenceWithSectionName_GetName. rewrite Hsection.
  split; [|split].
  - intros l g Hparent (_ & _ & Hns & Hname) Hl.
    unfold Listener_GetName, Listener_GetNamespace.
    rewrite Hparent, Hl.
    cbn in Hns, Hname |- *. by rewrite Hns, Hname.
  - intros r h Hparent (_ & _ & Hns & Hname) Hr.
    unfold HTTPRouteRule_GetName, HTTPRouteRule_GetNamespace.
    rewrite Hparent, Hr.
    cbn in Hns, Hname |- *. by rewrite Hns, Hname.
  - intros p s Hparent (_ & _ & Hns & Hname) Hp.
    unfold ServicePort_GetName, ServicePort_GetNamespace.
    rewrite Hparent, Hp.
    cbn in Hns, Hname |- *. by rewrite Hns, Hname.
Qed.

Lemma expanded_node_GetName_matches_reference_witness :
  Listener_GetName my_listener = Some "my-gateway#my-listener"
  ∧ HTTPRouteRule_GetName my_rule = Some "my-http-route#rule-1"
  ∧ ServicePort_GetName my_port = Some "my-service#http"
  ∧ ServicePort_GetNamespace my_port = Some "my-namespace".
Proof.
  destruct (expanded_node_GetName_matches_reference listener_ref "my-listener"
              eq_refl) as (Hl & _ & _).
  destruct (expanded_node_GetName_matches_reference rule_ref "rule-1" eq_refl)
    as (_ & Hr & _).
  destruct (expanded_node_GetName_matches_reference port_ref "http" eq_refl)
    as (_ & _ & Hp).
  destruct (Hl my_listener my_gateway eq_refl) as (-> & _);
    [by repeat split | reflexivity |].
  destruct (Hr my_rule my_http_route eq_refl) as (-> & _);
    [by repeat split | reflexivity |].
  destruct (Hp my_port my_service eq_refl) as (-> & ->);
    [by repeat split | reflexivity |].
  by repeat split.
Defined.

(** ** Uniqueness of the locators of sub-resources *)

Lemma namespacedSectionName_inj_r (namespace s1 s2 : string) :
  namespacedSectionName namespace s1 = namespacedSectionName namespace s2 →
  s1 = s2.
Proof.
  rewrite !namespacedSectionName_eq. intros Heq.
  apply (inj (String.append namespace)) in Heq.
  by apply (inj (String.append "#")) in Heq.
Qed.

(** X2. Two sub-resources of one parent have the same locator only when
    they have the same name: listeners of a gateway, rules of an HTTP or a
    GRPC route and ports of a service are told apart by their locators. *)
Theorem sibling_locators_injective
    (Locator : GroupVersionKind → string → string → string) :
  (∀ l1 l2 g, Listener_Gateway l1 = Some g → Listener_Gateway l2 = Some g →
     Listener_GetURL Locator l1 = Listener_GetURL Locator l2 →
     gw_Listener_Name (Listener_obj l1) = gw_Listener_Name (Listener_obj l2))
  ∧ (∀ r1 r2 h, HTTPRouteRule_HTTPRoute r1 = Some h →
     HTTPRouteRule_HTTPRoute r2 = Some h →
     HTTPRouteRule_GetURL Locator r1 = HTTPRouteRule_GetURL Locator r2 →
     HTTPRouteRule_Name r1 = HTTPRouteRule_Name r2)
  ∧ (∀ r1 r2 h, GRPCRouteRule_GRPCRoute r1 = Some h →
     GRPCRouteRule_GRPCRoute r2 = Some h →
     GRPCRouteRule_GetURL Locator r1 = GRPCRouteRule_GetURL Locator r2 →
     GRPCRouteRule_Name r1 = GRPCRouteRule_Name r2)
  ∧ (∀ p1 p2 s, ServicePort_Service p1 = Some s →
     ServicePort_Service p2 = Some s →
     ServicePort_GetURL Locator p1 = ServicePort_GetURL Locator p2 →
     core_ServicePort_Name (ServicePort_obj p1)
     = core_ServicePort_Name (ServicePort_obj p2)).
Proof.
  split; [|split; [|split]].
  - intros l1 l2 g H1 H2. unfold Listener_GetURL. rewrite H1, H2. simpl.
    intros [= Heq]. by apply namespacedSectionName_inj_r in Heq.
  - intros r1 r2 h H1 H2. unfold HTTPRouteRule_GetURL. rewrite H1, H2. simpl.
    intros [= Heq]. by apply namespacedSectionName_inj_r in Heq.
  - intros r1 r2 h H1 H2. unfold GRPCRouteRule_GetURL. rewrite H1, H2. simpl.
    intros [= Heq]. by apply namespacedSectionName_inj_r in Heq.
  - intros p1 p2 s H1 H2. unfold ServicePort_GetURL. rewrite H1, H2. simpl.
    intros [= Heq]. by apply namespacedSectionName_inj_r in Heq.
Qed.

Lemma sibling_locators_injective_witness :
  gw_Listener_Name (Listener_obj my_listener)
  = gw_Listener_Name (Listener_obj other_listener).
Proof.
  destruct (sibling_locators_injective sample_Locator) as (Hl & _).
  apply (Hl my_listener other_listener my_gateway); reflexivity.
Defined.

Lemma has_separator_cons (c : Ascii.ascii) (s : string) :
  has_separator (String c s) = false →
  c ≠ nameSectionNameURLSeparator ∧ has_separator s = false.
Proof.
  simpl. destruct (Ascii.eqb_spec c nameSectionNameURLSeparator); [done |].
  by intros ->.
Qed.

(** X3. [namespacedSectionName] loses nothing when the first part holds no
    separator: from the result, the first part and the section name are
    both determined. *)
Theorem namespacedSectionName_inj (n1 s1 n2 s2 : string) :
  has_separator n1 = false → has_separator n2 = false →
  namespacedSectionName n1 s1 = namespacedSectionName n2 s2 →
  n1 = n2 ∧ s1 = s2.
Proof.
  rewrite !namespacedSectionName_eq.
  revert n2. induction n1 as [|c1 n1 IH]; intros [|c2 n2] H1 H2 Heq.
  - split; [done |]. by apply (inj (String.append "#")) in Heq.
  - apply has_separator_cons in H2 as (Hc & _).
    rewrite append_cons in Heq. by injection Heq as <- _.
  - apply has_separator_cons in H1 as (Hc & _).
    rewrite append_cons in Heq. by injection Heq as -> _.
  - apply has_separator_cons in H1 as (_ & H1).
    apply has_separator_cons in H2 as (_ & H2).
    rewrite !append_cons in Heq. injection Heq as -> Heq.
    destruct (IH n2 H1 H2 Heq) as (-> & ->). done.
Qed.

Lemma namespacedSectionName_inj_witness :
  "gateway:ns/a" = "gateway:ns/a" ∧ "listener-1" = "listener-1".
Proof.
  apply (namespacedSectionName_inj "gateway:ns/a" "listener-1"
           "gateway:ns/a" "listener-1"); reflexivity.
Defined.

(** Without that condition two different pairs can collide. *)
Lemma namespacedSectionName_collision :
  namespacedSectionName "a#b" "c" = namespacedSectionName "a" "b#c".
Proof. reflexivity. Qed.

(** ** Attached policies *)

(** X4. [Policies] returns what the last [SetPolicies] stored, a second
    [SetPolicies] replaces the first, and attaching policies changes
    neither the locator of the targetable nor, for a parent, the locators
    of its sub-resources. *)
Theorem SetPolicies_Policies
    (Locator : GroupVersionKind → string → string → string)
    (policies policies' : list Policy)
    (g : Gateway) (l : Listener) (h : HTTPRoute) (r : HTTPRouteRule)
    (s : Service) (p : ServicePort) :
  (Gateway_Policies (Gateway_SetPolicies g policies) = policies
   ∧ Gateway_SetPolicies (Gateway_SetPolicies g policies) policies'
     = Gateway_SetPolicies g policies'
   ∧ Gateway_GetURL Locator (Gateway_SetPolicies g policies)
     = Gateway_GetURL Locator g
   ∧ Listener_Policies (Listener_SetPolicies l policies) = policies
   ∧ Listener_GetURL Locator (Listener_SetPolicies l policies)
     = Listener_GetURL Locator l
   ∧ Listener_GetURL Locator
       {| Listener_obj := Listener_obj l;
          Listener_Gateway := Some (Gateway_SetPolicies g policies);
          Listener_attachedPolicies := Listener_attachedPolicies l |}
     = Listener_GetURL Locator
         {| Listener_obj := Listener_obj l; Listener_Gateway := Some g;
            Listener_attachedPolicies := Listener_attachedPolicies l |})
  ∧ (HTTPRoute_Policies (HTTPRoute_SetPolicies h policies) = policies
     ∧ HTTPRoute_SetPolicies (HTTPRoute_SetPolicies h policies) policies'
       = HTTPRoute_SetPolicies h policies'
     ∧ HTTPRoute_GetURL Locator (HTTPRoute_SetPolicies h policies)
       = HTTPRoute_GetURL Locator h
     ∧ HTTPRouteRule_Policies (HTTPRouteRule_SetPolicies r policies) = policies
     ∧ HTTPRouteRule_GetURL Locator (HTTPRouteRule_SetPolicies r policies)
       = HTTPRouteRule_GetURL Locator r)
  ∧ (Service_Policies (Service_SetPolicies s policies) = policies
     ∧ Service_SetPolicies (Service_SetPolicies s policies) policies'
       = Service_SetPolicies s policies'
     ∧ Service_GetURL Locator (Service_SetPolicies s policies)
       = Service_GetURL Locator s
     ∧ ServicePort_Policies (ServicePort_SetPolicies p policies) = policies
     ∧ ServicePort_GetURL Locator (ServicePort_SetPolicies p policies)
       = ServicePort_GetURL Locator p).
Proof. by repeat split. Qed.

(** ** GRPC route rules *)

(** X5. A GRPC route rule is located and named like the other expanded
    sub-resources: locator and name are those of its route, then ['#'],
    then the name of the rule, and its namespace is that of the route. *)
Theorem GRPCRouteRule_identity
    (Locator : GroupVersionKind → string → string → string)
    (r : GRPCRouteRule) (g : GRPCRoute) :
  GRPCRouteRule_GRPCRoute r = Some g →
  GRPCRouteRule_GetURL Locator r
  = Some (GRPCRoute_GetURL Locator g +:+ "#" +:+ GRPCRouteRule_Name r)
  ∧ GRPCRouteRule_GetName r
    = Some (GetName g +:+ "#" +:+ GRPCRouteRule_Name r)
  ∧ GRPCRouteRule_GetNamespace r = Some (GetNamespace g)
  ∧ GRPCRouteRule_GetURL Locator r ≠ Some (GRPCRoute_GetURL Locator g).
Proof.
  intros Hparent.
  unfold GRPCRouteRule_GetURL, GRPCRouteRule_GetName,
    GRPCRouteRule_GetNamespace.
  rewrite Hparent. repeat split.
  intros [= Heq]. by apply namespacedSectionName_neq in Heq.
Qed.

Lemma GRPCRouteRule_identity_witness :
  GRPCRouteRule_GetURL sample_Locator my_grpc_rule
  = Some "grpcroute:my-namespace/my-grpc-route#rule-1"
  ∧ GRPCRouteRule_GetName my_grpc_rule = Some "my-grpc-route#rule-1".
Proof.
  destruct (GRPCRouteRule_identity sample_Locator my_grpc_rule my_grpc_route
              eq_refl) as (-> & -> & _).
  by split.
Defined.

(** ** Target references of a BackendTLSPolicy *)

(** X6. [GetTargetRefs] returns the target references of the spec, in
    their order and unchanged, each placed in the namespace of the policy:
    whatever object a returned reference names is in that namespace. *)
Theorem BackendTLSPolicy_GetTargetRefs_spec (p : BackendTLSPolicy) :
  length (BackendTLSPolicy_GetTargetRefs p)
  = length (btls_TargetRefs (BackendTLSPolicy_obj p))
  ∧ (∀ i,
       LocalPolicyTargetReferenceWithSectionName_ref
         <$> BackendTLSPolicy_GetTargetRefs p !! i
       = btls_TargetRefs (BackendTLSPolicy_obj p) !! i)
  ∧ (∀ t, t ∈ BackendTLSPolicy_GetTargetRefs p →
       LocalPolicyTargetReferenceWithSectionName_GetNamespace t
       = meta_namespace (btls_meta (BackendTLSPolicy_obj p))
       ∧ ∀ (P : Type) (HP : machinery.Object P) (parent : P),
           names_object t parent →
           GetNamespace parent
           = meta_namespace (btls_meta (BackendTLSPolicy_obj p))).
Proof.
  unfold BackendTLSPolicy_GetTargetRefs.
  split; [by rewrite length_map |].
  split.
  - intros i. rewrite list_lookup_fmap.
    by destruct (btls_TargetRefs (BackendTLSPolicy_obj p) !! i).
  - intros t Ht. apply list_elem_of_fmap in Ht as (item & -> & _).
    split; [done |].
    by intros P HP parent (_ & _ & Hns & _).
Qed.

Lemma BackendTLSPolicy_GetTargetRefs_spec_witness :
  GetNamespace my_service = "my-namespace".
Proof.
  destruct (BackendTLSPolicy_GetTargetRefs_spec (tls_policy "tls" "example.com"))
    as (_ & _ & Hrefs).
  destruct (Hrefs port_ref) as (_ & Hnames).
  - apply list_elem_of_here.
  - apply (Hnames Service _ my_service). by repeat split.
Defined.

(** * Further properties of the controller runnables *)

(** ** Destruct and Restructure *)


Lemma Typed_round_trip (x : Typed) (u : list (string * string)) :
  Typed_ToUnstructured x = (u, None) →
  Typed_FromUnstructured u Typed_zero = (x, None).
Proof.
  unfold Typed_ToUnstructured. destruct x as [name kind]. simpl.
  destruct (String.eqb name ""); [done |]. by intros [= <-].
Qed.


(** ** SliceToMap *)

Lemma SliceToMap_snoc {A V : Type} (f : A → string * V) (l : list A) (x : A) :
  SliceToMap f (l ++ [x]) = <[(f x).1 := (f x).2]> (SliceToMap f l).
Proof.
  unfold SliceToMap. rewrite foldl_app. simpl. by destruct (f x).
Qed.

Lemma SliceToMap_lookup_Some {A V : Type} (f : A → string * V) (l : list A)
    (k : string) (v : V) :
  SliceToMap f l !! k = Some v → ∃ x, x ∈ l ∧ f x = (k, v).
Proof.
  induction l as [|x l IH] using rev_ind; [done |].
  rewrite SliceToMap_snoc. destruct (decide ((f x).1 = k)) as [<- | Hne].
  - rewrite lookup_insert_eq. intros [= <-]. exists x.
    split; [set_solver | by destruct (f x)].
  - rewrite lookup_insert_ne by done. intros Hk.
    destruct (IH Hk) as (y & Hy & Hfy). exists y.
    split; [apply elem_of_app; by left | done].
Qed.

Lemma SliceToMap_lookup_last {A V : Type} (f : A → string * V)
    (before after : list A) (x : A) :
  (∀ y, y ∈ after → (f y).1 ≠ (f x).1) →
  SliceToMap f (before ++ x :: after) !! (f x).1 = Some (f x).2.
Proof.
  induction after as [|y after IH] using rev_ind; intros Hafter.
  - rewrite SliceToMap_snoc. by rewrite lookup_insert_eq.
  - replace (before ++ x :: after ++ [y])%list
      with ((before ++ x :: after) ++ [y])%list by by rewrite <- app_assoc.
    rewrite SliceToMap_snoc, lookup_insert_ne by (apply Hafter; set_solver).
    apply IH. intros z Hz. apply Hafter. set_solver.
Qed.

Lemma SliceToMap_size {A V : Type} (f : A → string * V) (l : list A) :
  (size (SliceToMap f l) ≤ length l)%nat
  ∧ (NoDup ((λ x, (f x).1) <$> l) → size (SliceToMap f l) = length l).
Proof.
  induction l as [|x l (IHle & IHeq)] using rev_ind; [done |].
  rewrite SliceToMap_snoc, length_app. simpl. split.
  - destruct (SliceToMap f l !! (f x).1) eqn:Hk.
    + rewrite map_size_insert_Some by done. lia.
    + rewrite map_size_insert_None by done. lia.
  - rewrite fmap_app. simpl. intros Hnodup.
    apply NoDup_app in Hnodup as (Hl & Hfresh & _).
    rewrite map_size_insert_None; [rewrite IHeq by done; lia |].
    destruct (SliceToMap f l !! (f x).1) eqn:Hk; [|done].
    apply SliceToMap_lookup_Some in Hk as (y & Hy & Hfy).
    exfalso. apply (Hfresh (f x).1); [|set_solver].
    apply list_elem_of_fmap. exists y. by rewrite Hfy.
Qed.

(** ** The store view of a listing *)

Section ListFuncFacts.
Context {Doc T : Type}.
Variable FromUnstructured : Doc → T → T * option error.
Variable zero : T.

#[local] Abbreviation fails := (conversion_fails FromUnstructured zero).
#[local] Abbreviation transform := (listFunc_transform FromUnstructured zero).

Lemma listFunc_transform_eq (o : Unstructured Doc) :
  transform o
  = if decide (fails o) then ("", None)
    else (GetUID o, Some (converted FromUnstructured zero o)).
Proof.
  destruct (decide (fails o)) as [Hfail | Hok].
  - by apply listFunc_transform_failed.
  - unfold conversion_fails, converted, listFunc_transform, Restructure in *.
    destruct (FromUnstructured (UnstructuredContent o) zero) as [v [e|]];
      simpl in *; [|done].
    exfalso. apply Hok. by eexists.
Qed.

Lemma listFunc_view (group kind : string) (items : list (Unstructured Doc)) :
  snd (listFunc FromUnstructured zero group kind (ListItems items))
  = SliceToMap transform items.
Proof. by destruct items. Qed.

(** X8. [listFunc] always names the group and kind it lists.  A listing
    that fails yields the same empty view as a listing without items, and
    a listing with at least one item never yields an empty view. *)
Theorem listFunc_empty_view (group kind : string) (resp : ListResponse Doc)
    (e : error) (o : Unstructured Doc) (items : list (Unstructured Doc)) :
  fst (listFunc FromUnstructured zero group kind resp) = (group, kind)
  ∧ listFunc FromUnstructured zero group kind (ListError e)
    = ((group, kind), ∅)
  ∧ listFunc FromUnstructured zero group kind (ListItems [])
    = ((group, kind), ∅)
  ∧ snd (listFunc FromUnstructured zero group kind (ListItems (o :: items)))
    ≠ ∅.
Proof.
  split; [|split; [done | split; [done |]]].
  - destruct resp as [[|item rest]|]; reflexivity.
  - rewrite listFunc_view.
    destruct (exists_last (l := o :: items)) as (l & x & ->); [done |].
    rewrite SliceToMap_snoc. apply insert_non_empty.
Qed.

(** X9. Every entry of the view comes from a listed item: it is either
    the empty key with the [nil] object, for an item whose conversion
    failed, or the UID of an item with the object it was converted to.
    The view has at most as many entries as the listing has items. *)
Theorem listFunc_view_entries (group kind : string)
    (items : list (Unstructured Doc)) (k : string) (v : option T) :
  snd (listFunc FromUnstructured zero group kind (ListItems items)) !! k
  = Some v →
  (∃ o, o ∈ items
        ∧ ((fails o ∧ k = "" ∧ v = None)
           ∨ (¬ fails o ∧ k = GetUID o
              ∧ v = Some (converted FromUnstructured zero o))))
  ∧ (size (snd (listFunc FromUnstructured zero group kind (ListItems items)))
     ≤ length items)%nat.
Proof.
  rewrite listFunc_view. intros Hk. split; [|apply SliceToMap_size].
  apply SliceToMap_lookup_Some in Hk as (o & Ho & Hfo). exists o.
  split; [done |]. rewrite listFunc_transform_eq in Hfo.
  destruct (decide (fails o)); injection Hfo as <- <-; [by left | by right].
Qed.

(** X10. Of the items that share a UID the last one wins: a converted
    item is found under its UID when no later item is stored under the
    same key, that is, no later converted item has that UID and, if the
    UID is empty, no later conversion fails. *)
Theorem listFunc_last_item_wins (group kind : string)
    (before after : list (Unstructured Doc)) (o : Unstructured Doc) :
  ¬ fails o →
  (∀ o', o' ∈ after → ¬ fails o' → GetUID o' ≠ GetUID o) →
  (∀ o', o' ∈ after → fails o' → GetUID o ≠ "") →
  snd (listFunc FromUnstructured zero group kind
         (ListItems (before ++ o :: after))) !! GetUID o
  = Some (Some (converted FromUnstructured zero o)).
Proof.
  intros Hok Hlater Hfailed. rewrite listFunc_view.
  pose proof (SliceToMap_lookup_last transform before after o) as Hlast.
  rewrite (listFunc_transform_eq o), decide_False in Hlast by done.
  apply Hlast. intros o' Ho'. rewrite listFunc_transform_eq.
  destruct (decide (fails o')); simpl.
  - intros Heq. by apply (Hfailed o').
  - by apply Hlater.
Qed.

(** X11. When every conversion succeeds and the UIDs of the listing are
    pairwise distinct, the view has one entry for each item: every item is
    found under its UID with the object it was converted to, and the view
    has as many entries as the listing has items. *)
Theorem listFunc_complete_view (group kind : string)
    (items : list (Unstructured Doc)) :
  (∀ o, o ∈ items → ¬ fails o) →
  NoDup (GetUID <$> items) →
  (∀ o, o ∈ items →
     snd (listFunc FromUnstructured zero group kind (ListItems items))
       !! GetUID o
     = Some (Some (converted FromUnstructured zero o)))
  ∧ size (snd (listFunc FromUnstructured zero group kind (ListItems items)))
    = length items.
Proof.
  intros Hok Hnodup.
  assert ((λ x, (transform x).1) <$> items = GetUID <$> items) as Hkeys.
  { apply list_fmap_ext. intros i o Ho. rewrite listFunc_transform_eq.
    rewrite decide_False; [done |]. apply Hok. by eapply list_elem_of_lookup_2. }
  split.
  - intros o Ho. apply list_elem_of_split in Ho as (before & after & ->).
    apply listFunc_last_item_wins.
    + apply Hok. set_solver.
    + intros o' Ho' _ Heq. rewrite fmap_app in Hnodup.
      apply NoDup_app in Hnodup as (_ & _ & Hnodup).
      rewrite fmap_cons in Hnodup. apply NoDup_cons in Hnodup as (Hnotin & _).
      apply Hnotin. rewrite <- Heq. by apply list_elem_of_fmap_2.
    + intros o' Ho' Hfail. exfalso. apply (Hok o'); [set_solver | done].
  - rewrite listFunc_view. apply SliceToMap_size. by rewrite Hkeys.
Qed.
End ListFuncFacts.

Lemma Typed_items_converted :
  ¬ conversion_fails Typed_FromUnstructured Typed_zero good_item
  ∧ ¬ conversion_fails Typed_FromUnstructured Typed_zero route_item
  ∧ ¬ conversion_fails Typed_FromUnstructured Typed_zero newer_item.
Proof. repeat split; intros [e He]; discriminate He. Qed.

Lemma listFunc_view_entries_witness :
  (∃ o, o ∈ [good_item; bad_item]
        ∧ ((conversion_fails Typed_FromUnstructured Typed_zero o
            ∧ "" = "" ∧ @None Typed = None)
           ∨ (¬ conversion_fails Typed_FromUnstructured Typed_zero o
              ∧ "" = GetUID o
              ∧ None = Some (converted Typed_FromUnstructured Typed_zero o))))
  ∧ (size (snd (listFunc Typed_FromUnstructured Typed_zero
                  "gateway.networking.k8s.io" "Gateway"
                  (ListItems [good_item; bad_item]))) ≤ 2)%nat.
Proof.
  apply (listFunc_view_entries Typed_FromUnstructured Typed_zero
           "gateway.networking.k8s.io" "Gateway" [good_item; bad_item] "" None).
  vm_compute. reflexivity.
Defined.

Lemma listFunc_last_item_wins_witness :
  snd (listFunc Typed_FromUnstructured Typed_zero
         "gateway.networking.k8s.io" "Gateway"
         (ListItems [good_item; bad_item; newer_item; route_item])) !! "uid-1"
  = Some (Some {| Typed_name := "my-gateway"; Typed_kind := "Gateway-v2" |}).
Proof.
  destruct Typed_items_converted as (_ & Hroute & Hnewer).
  apply (listFunc_last_item_wins Typed_FromUnstructured Typed_zero
           "gateway.networking.k8s.io" "Gateway"
           [good_item; bad_item] [route_item] newer_item Hnewer).
  - intros o' Ho' _. apply list_elem_of_singleton in Ho' as ->. discriminate.
  - intros o' Ho' Hfail. discriminate.
Defined.

Lemma listFunc_complete_view_witness :
  snd (listFunc Typed_FromUnstructured Typed_zero
         "gateway.networking.k8s.io" "Gateway"
         (ListItems [good_item; route_item])) !! "uid-3"
  = Some (Some {| Typed_name := "my-route"; Typed_kind := "HTTPRoute" |})
  ∧ size (snd (listFunc Typed_FromUnstructured Typed_zero
                 "gateway.networking.k8s.io" "Gateway"
                 (ListItems [good_item; route_item]))) = 2.
Proof.
  destruct Typed_items_converted as (Hgood & Hroute & _).
  destruct (listFunc_complete_view Typed_FromUnstructured Typed_zero
              "gateway.networking.k8s.io" "Gateway" [good_item; route_item])
    as (Hfound & Hsize).
  - intros o Ho. apply elem_of_cons in Ho as [-> | Ho]; [done |].
    by apply list_elem_of_singleton in Ho as ->.
  - apply NoDup_cons. split; [|apply NoDup_singleton].
    intros Hin. apply list_elem_of_singleton in Hin. discriminate Hin.
  - split; [|exact Hsize].
    apply (Hfound route_item). apply elem_of_cons. right. apply list_elem_of_here.
Defined.

(** ** Options of the runnable builders *)

Section OptionsFacts.
Context {BuilderFunc RunnableBuilder : Type}.

#[local] Abbreviation Option := (RunnableBuilderOption (BuilderFunc := BuilderFunc)).
#[local] Abbreviation Options := (RunnableBuilderOptions (BuilderFunc := BuilderFunc)).

Variable call_builder :
  BuilderFunc → GroupVersionResource → string → list Option → RunnableBuilder.
Variable IncrementalInformer_func : BuilderFunc.

Lemma apply_options_snoc (options : list Option)
    (f : Option) (o : Options) :
  apply_options (options ++ [f]) o
  = RunnableBuilderOption_call f (apply_options options o).
Proof. unfold apply_options. by rewrite foldl_app. Qed.

(** X12. Applying a list of options, the last option of each sort wins:
    the label selector, the field selector and the builder are those of
    the last option that sets them, and are left as they were when no
    option sets them. *)
Theorem apply_options_last_wins (options : list Option)
    (o : Options) :
  RunnableBuilderOptions_LabelSelector (apply_options options o)
  = default (RunnableBuilderOptions_LabelSelector o)
      (last (omap option_label options))
  ∧ RunnableBuilderOptions_FieldSelector (apply_options options o)
    = default (RunnableBuilderOptions_FieldSelector o)
        (last (omap option_field options))
  ∧ RunnableBuilderOptions_Builder (apply_options options o)
    = match last (omap option_builder options) with
      | Some builder => Some builder
      | None => RunnableBuilderOptions_Builder o
      end.
Proof.
  induction options as [|f options (IHl & IHf & IHb)] using rev_ind; [done |].
  rewrite apply_options_snoc, !omap_app.
  destruct f as [selector | selector | builder]; simpl;
    rewrite ?app_nil_r, ?last_snoc; by repeat split.
Qed.


(** X14. The informer lists and watches with the same selectors: a
    selector set by an option replaces the one of the request, an empty
    one leaves it.  On a request without selectors these are the selectors
    with which the StateReconciler lists: those of the last label and field
    options, or none. *)
Theorem informer_selectors (options : list Option)
    (o : Options)
    (request : ListOptions) :
  IncrementalInformer_WatchFunc_options o request
  = IncrementalInformer_ListFunc_options o request
  ∧ ListOptions_LabelSelector (IncrementalInformer_ListFunc_options o request)
    = (if decide (RunnableBuilderOptions_LabelSelector o = "")
       then ListOptions_LabelSelector request
       else RunnableBuilderOptions_LabelSelector o)
  ∧ ListOptions_FieldSelector (IncrementalInformer_ListFunc_options o request)
    = (if decide (RunnableBuilderOptions_FieldSelector o = "")
       then ListOptions_FieldSelector request
       else RunnableBuilderOptions_FieldSelector o)
  ∧ IncrementalInformer_ListFunc_options o
      {| ListOptions_LabelSelector := ""; ListOptions_FieldSelector := "" |}
    = StateReconciler_ListOptions o
  ∧ StateReconciler_ListOptions (builder_options options)
    = {| ListOptions_LabelSelector :=
           default "" (last (omap option_label options));
         ListOptions_FieldSelector :=
           default "" (last (omap option_field options)) |}.
Proof.
  split; [done |].
  unfold IncrementalInformer_ListFunc_options, StateReconciler_ListOptions.
  destruct o as [label field builder]. simpl.
  destruct (String.eqb_spec label ""), (String.eqb_spec field "");
    subst; simpl; repeat case_decide; try done.
  all: repeat split; try done.
  all: unfold builder_options;
    by destruct (apply_options_last_wins options
                   {| RunnableBuilderOptions_LabelSelector := "";
                      RunnableBuilderOptions_FieldSelector := "";
                      RunnableBuilderOptions_Builder := None |})
      as (-> & -> & _).
Qed.
End OptionsFacts.

(** ** The wrapper [controller.Object] *)

(** X15. An object that the builder wraps has the locator of its own
    kind, namespace and name.  A Gateway, an HTTPRoute or a Service wrapped
    as a plain object therefore has the very locator of the targetable
    made of the same resource, whatever policies are attached to it. *)
Theorem Object_GetURL_of_wrapped
    (Locator : GroupVersionKind → string → string → string)
    (obj : RuntimeObject) (policies : list Policy)
    (gw : gw_Gateway) (httpRoute : gw_HTTPRoute) (service : core_Service) :
  Object_GetURL Locator {| Object_RuntimeObject := obj |}
  = Locator (meta_gvk (RuntimeObject_meta obj))
      (meta_namespace (RuntimeObject_meta obj))
      (meta_name (RuntimeObject_meta obj))
  ∧ Object_GetURL Locator {| Object_RuntimeObject := RO_Gateway gw |}
    = Gateway_GetURL Locator
        {| Gateway_obj := gw; Gateway_attachedPolicies := policies |}
  ∧ Object_GetURL Locator {| Object_RuntimeObject := RO_HTTPRoute httpRoute |}
    = HTTPRoute_GetURL Locator
        {| HTTPRoute_obj := httpRoute; HTTPRoute_attachedPolicies := policies |}
  ∧ Object_GetURL Locator {| Object_RuntimeObject := RO_Service service |}
    = Service_GetURL Locator
        {| Service_obj := service; Service_attachedPolicies := policies |}.
Proof. by repeat split. Qed.

(** ** More on the topology builder *)

(** X16. On an empty store [Build] still makes a topology: of no
    GatewayClasses, Gateways, HTTPRoutes and Services, with the three
    expansions, the link functions applied to the empty store, and one
    empty list of policies or objects for each policy and object kind. *)
Theorem Build_empty_store {LinkFunc Topology : Type}
    (NewGatewayAPITopology :
       list (GatewayAPITopologyOptionsFunc (LinkFunc := LinkFunc)) → Topology)
    (t : gatewayAPITopologyBuilder) :
  Build NewGatewayAPITopology t ∅
  = NewGatewayAPITopology
      ([ WithGatewayClasses [];
         WithGateways [];
         WithHTTPRoutes [];
         WithServices [];
         ExpandGatewayListeners;
         ExpandHTTPRouteRules;
         ExpandServicePorts;
         WithGatewayAPITopologyLinks ((λ linkFunc, linkFunc ∅) <$> objectLinks t) ]
       ++ ((λ _, WithGatewayAPITopologyPolicies []) <$> policyKinds t)
       ++ ((λ _, WithGatewayAPITopologyObjects []) <$> objectKinds t))%list.
Proof.
  unfold Build. rewrite Build_opts_eq. reflexivity.
Qed.

Lemma Store_index_upsert (objs : Store) (gk gk' : GroupKind) (uid : string)
    (obj : RuntimeObject) :
  Store_index (Store_upsert objs gk uid obj) gk'
  = if decide (gk = gk') then <[uid := obj]> (Store_index objs gk)
    else Store_index objs gk'.
Proof.
  unfold Store_upsert, Store_index at 1.
  rewrite lookup_insert. by destruct (decide (gk = gk')).
Qed.

Lemma FilterMap_Values_insert {V R : Type} (f : V → option R)
    (m : gmap string V) (k : string) (v : V) :
  FilterMap f (Values (<[k := v]> m))
  ≡ₚ (option_list (f v) ++ FilterMap f (Values (delete k m)))%list.
Proof.
  rewrite <- (insert_delete_eq m). unfold FilterMap, Values.
  rewrite map_to_list_insert by apply lookup_delete_eq.
  csimpl. by destruct (f v).
Qed.

(** The candidates of an assertion after an entry is stored. *)
Lemma FilterMap_Store_upsert {R : Type} (f : RuntimeObject → option R)
    (objs : Store) (gk : GroupKind) (uid : string) (obj : RuntimeObject) :
  FilterMap f (Values (Store_index (Store_upsert objs gk uid obj) gk))
  ≡ₚ (option_list (f obj)
      ++ FilterMap f (Values (Store_index (Store_without objs gk uid) gk)))%list.
Proof.
  rewrite Store_index_upsert, Store_index_without, !decide_True by done.
  apply FilterMap_Values_insert.
Qed.



(** * Properties of the example reconcilers *)

Lemma Find_Some {A : Type} (f : A → bool) (l : list A) (x : A) :
  Find f l = Some x →
  f x = true
  ∧ ∃ before after, l = (before ++ x :: after)%list
                    ∧ ∀ y, y ∈ before → f y = false.
Proof.
  unfold Find. induction l as [|a l IH]; [done |].
  simpl. destruct (f a) eqn:Hfa.
  - intros [= ->]. split; [done |]. exists [], l. split; [done |].
    intros y Hy. by inversion Hy.
  - intros Hfind. destruct (IH Hfind) as (Hfx & before & after & -> & Hbefore).
    split; [done |]. exists (a :: before), after. split; [done |].
    intros y Hy. apply elem_of_cons in Hy as [-> | Hy]; [done | by apply Hbefore].
Qed.

Lemma Find_None {A : Type} (f : A → bool) (l : list A) :
  Find f l = None → ∀ y, y ∈ l → f y = false.
Proof.
  unfold Find. intros Hfind y Hy.
  apply (find_none f l Hfind). by apply list_elem_of_In.
Qed.

(** ** The link from gateways to security policies *)

Section LinkFacts.
Variable kind : string.
Variable gateways : list gw_Gateway.
Variable sp : eg_SecurityPolicy.

Lemma SecurityPolicy_refs_filtered
    (ref : gw_LocalPolicyTargetReferenceWithSectionName) :
  let targetReferences :=
    SecurityPolicySpec_PolicyTargetReferences (SecurityPolicy_Spec sp) in
  ref ∈ Filter
          (λ ref,
             String.eqb (lref_Group (sref_LocalPolicyTargetReference ref))
               gwapiv1_Group
             && String.eqb (lref_Kind (sref_LocalPolicyTargetReference ref)) kind)
          (match PolicyTargetReferences_TargetRef targetReferences with
           | Some ref =>
               go_append (PolicyTargetReferences_TargetRefs targetReferences) [ref]
           | None => PolicyTargetReferences_TargetRefs targetReferences
           end)
  ↔ ref ∈ SecurityPolicy_refs sp
    ∧ lref_Group (sref_LocalPolicyTargetReference ref) = gwapiv1_Group
    ∧ lref_Kind (sref_LocalPolicyTargetReference ref) = kind.
Proof.
  cbv zeta. unfold Filter, SecurityPolicy_refs, go_append.
  rewrite list_elem_of_In, filter_In, <- list_elem_of_In.
  rewrite andb_true_iff, !String.eqb_eq.
  destruct (PolicyTargetReferences_TargetRef
              (SecurityPolicySpec_PolicyTargetReferences (SecurityPolicy_Spec sp)));
    simpl; [done |].
  by rewrite app_nil_r.
Qed.
End LinkFacts.

Lemma link_func_first_target
    (kind : string) (gateways : list gw_Gateway) (sp : eg_SecurityPolicy) :
  ∃ parents,
    LinkGatewayToEnvoyGatewaySecurityPolicy_Func kind gateways
      (TO_RuntimeObject (RT_SecurityPolicy sp)) = Some parents
    ∧ (length parents ≤ 1)%nat
    ∧ (parents = [] ↔ ∀ g, g ∈ gateways → ¬ targets_gateway kind sp g)
    ∧ (∀ parent, parent ∈ parents →
         Gateway_attachedPolicies parent = []
         ∧ targets_gateway kind sp (Gateway_obj parent)
         ∧ ∃ before after,
             gateways = (before ++ Gateway_obj parent :: after)%list
             ∧ ∀ g, g ∈ before → ¬ targets_gateway kind sp g).
Proof.
  unfold LinkGatewayToEnvoyGatewaySecurityPolicy_Func. cbv zeta.
  pose proof (SecurityPolicy_refs_filtered kind sp) as Hrefs. cbv zeta in Hrefs.
  match type of Hrefs with
  | ∀ ref, ref ∈ ?l ↔ _ => set (refs := l) in *
  end.
  match goal with
  | |- context [Find ?f gateways] => set (pred := f)
  end.
  assert (∀ g, pred g = true ↔ targets_gateway kind sp g) as Hpred.
  { intros g. unfold pred, targets_gateway, ContainsBy.
    destruct (String.eqb_spec (meta_namespace (gw_Gateway_meta g))
                (meta_namespace (SecurityPolicy_meta sp))) as [Hns | Hns]; simpl.
    - rewrite existsb_exists. split.
      + intros (ref & Hin & Hname). split; [done |].
        apply list_elem_of_In, Hrefs in Hin as (Hin & Hgroup & Hkind).
        apply String.eqb_eq in Hname. by exists ref.
      + intros (_ & ref & Hin & Hgroup & Hkind & Hname). exists ref.
        split; [apply list_elem_of_In, Hrefs; done | by apply String.eqb_eq].
    - split; [done | by intros (Heq & _)]. }
  assert (∀ g, pred g = false → ¬ targets_gateway kind sp g) as Hnot.
  { intros g Hfalse Htargets. apply Hpred in Htargets. congruence. }
  destruct (Nat.eqb (length refs) 0) eqn:Hlen.
  - exists []. split; [done |]. split; [simpl; lia |].
    split; [| by intros parent Hin; inversion Hin].
    split; [|done]. intros _ g _ (_ & ref & Hin & Hgroup & Hkind & _).
    apply Nat.eqb_eq, nil_length_inv in Hlen.
    assert (ref ∈ refs) as Href by by apply Hrefs.
    rewrite Hlen in Href. by inversion Href.
  - destruct (Find pred gateways) as [gateway|] eqn:Hfind.
    + apply Find_Some in Hfind as (Htrue & before & after & Hsplit & Hbefore).
      eexists. split; [done |]. split; [simpl; lia |]. split.
      * split; [done |]. intros Hnone. exfalso.
        apply (Hnone gateway); [| by apply Hpred].
        rewrite Hsplit. apply elem_of_app. right. apply list_elem_of_here.
      * intros parent Hin. apply list_elem_of_singleton in Hin as ->. simpl.
        split; [done |]. split; [by apply Hpred |].
        exists before, after. split; [done |].
        intros g Hg. by apply Hnot, Hbefore.
    + exists []. split; [done |]. split; [simpl; lia |].
      split; [| by intros parent Hin; inversion Hin].
      split; [|done]. intros _ g Hg.
      by apply Hnot, (Find_None pred gateways).
Qed.

(** X18. Applied to a security policy, the function of the link from
    gateways to security policies returns at most one parent, without
    attached policies: the first of the given gateways that the policy
    targets (same namespace, and named by a reference of the policy of the
    Gateway API group and of the gateway kind).  It returns no parent
    exactly when the policy targets none of the gateways. *)
Theorem LinkGatewayToEnvoyGatewaySecurityPolicy_first_target
    (kind : string) (gateways : list gw_Gateway) (sp : eg_SecurityPolicy) :
  ∃ parents,
    LinkGatewayToEnvoyGatewaySecurityPolicy_Func kind gateways
      (TO_RuntimeObject (RT_SecurityPolicy sp)) = Some parents
    ∧ (length parents ≤ 1)%nat
    ∧ (parents = [] ↔ ∀ g, g ∈ gateways → ¬ targets_gateway kind sp g)
    ∧ (∀ parent, parent ∈ parents →
         Gateway_attachedPolicies parent = []
         ∧ targets_gateway kind sp (Gateway_obj parent)
         ∧ ∃ before after,
             gateways = (before ++ Gateway_obj parent :: after)%list
             ∧ ∀ g, g ∈ before → ¬ targets_gateway kind sp g).
Proof. apply link_func_first_target. Qed.

(** ** Creating and deleting security policies *)

Lemma is_SecurityPolicy_of_meta (namespace name : string)
    (sp : eg_SecurityPolicy) (spec : eg_SecurityPolicySpec) :
  is_SecurityPolicy_of namespace name
    (TO_RuntimeObject
       (RT_SecurityPolicy
          {| SecurityPolicy_meta := SecurityPolicy_meta sp;
             SecurityPolicy_Spec := spec |}))
  = is_SecurityPolicy_of namespace name (TO_RuntimeObject (RT_SecurityPolicy sp)).
Proof. reflexivity. Qed.

Lemma is_SecurityPolicy_of_desired (namespace name : string) :
  is_SecurityPolicy_of namespace name
    (TO_RuntimeObject (RT_SecurityPolicy (desiredSecurityPolicy namespace name)))
  = true.
Proof.
  unfold is_SecurityPolicy_of. simpl. by rewrite !String.eqb_refl.
Qed.

Lemma Find_skip {A : Type} (f : A → bool) (before l : list A) :
  (∀ y, y ∈ before → f y = false) → Find f (before ++ l) = Find f l.
Proof.
  unfold Find. induction before as [|a before IH]; intros Hbefore; [done |].
  simpl. rewrite (Hbefore a) by by left.
  apply IH. intros y Hy. apply Hbefore. by right.
Qed.

Lemma createSecurityPolicy_found (sp : eg_SecurityPolicy)
    (before others : list topology_Object) (namespace name : string) :
  (∀ o, o ∈ before → is_SecurityPolicy_of namespace name o = false) →
  is_SecurityPolicy_of namespace name (TO_RuntimeObject (RT_SecurityPolicy sp))
  = true →
  ExtAuth_up_to_date sp = true →
  createSecurityPolicy
    (before ++ TO_RuntimeObject (RT_SecurityPolicy sp) :: others)
    namespace name = Some None
  ∧ deleteSecurityPolicy
      (before ++ TO_RuntimeObject (RT_SecurityPolicy sp) :: others)
      namespace name = Some (Delete namespace name).
Proof.
  intros Hbefore Hfound Hdate. unfold createSecurityPolicy, deleteSecurityPolicy.
  rewrite Find_skip by done. unfold Find.
  cbn [List.find]. by rewrite Hfound, Hdate.
Qed.



(** X20. The policy that [createSecurityPolicy] desires for a gateway is
    linked back to it: given gateways among which the gateway is, the link
    function returns exactly one parent for that policy, a gateway of the
    namespace and name of the gateway. *)
Theorem desiredSecurityPolicy_links_to_gateway (gateways : list gw_Gateway)
    (g : gw_Gateway) :
  g ∈ gateways →
  ∃ parent,
    LinkGatewayToEnvoyGatewaySecurityPolicy_Func "Gateway" gateways
      (TO_RuntimeObject
         (RT_SecurityPolicy
            (desiredSecurityPolicy (meta_namespace (gw_Gateway_meta g))
               (meta_name (gw_Gateway_meta g)))))
    = Some [ {| Gateway_obj := parent; Gateway_attachedPolicies := [] |} ]
    ∧ parent ∈ gateways
    ∧ meta_namespace (gw_Gateway_meta parent) = meta_namespace (gw_Gateway_meta g)
    ∧ meta_name (gw_Gateway_meta parent) = meta_name (gw_Gateway_meta g).
Proof.
  intros Hg.
  set (sp := desiredSecurityPolicy (meta_namespace (gw_Gateway_meta g))
               (meta_name (gw_Gateway_meta g))).
  destruct (link_func_first_target "Gateway" gateways sp)
    as (parents & -> & Hlen & Hnone & Hparents).
  assert (targets_gateway "Gateway" sp g) as Htargets.
  { split; [done |]. eexists. split; [apply list_elem_of_here | done]. }
  destruct parents as [|[parent policies] [|? ?]]; [| | simpl in Hlen; lia].
  - exfalso. by apply (proj1 Hnone eq_refl g).
  - destruct (Hparents {| Gateway_obj := parent;
                          Gateway_attachedPolicies := policies |})
      as (Hpolicies & (Hns & ref & Href & _ & _ & Hname) & before & after & -> & _);
      [apply list_elem_of_here |].
    simpl in *. subst policies. exists parent. split; [done |].
    split; [apply elem_of_app; right; apply list_elem_of_here |].
    split; [done |].
    apply list_elem_of_singleton in Href as ->. by rewrite <- Hname.
Qed.

Lemma desiredSecurityPolicy_links_to_gateway_witness :
  ∃ parent,
    LinkGatewayToEnvoyGatewaySecurityPolicy_Func "Gateway"
      [other_gateway; Gateway_obj my_gateway]
      (TO_RuntimeObject
         (RT_SecurityPolicy (desiredSecurityPolicy "my-namespace" "my-gateway")))
    = Some [ {| Gateway_obj := parent; Gateway_attachedPolicies := [] |} ]
    ∧ parent ∈ [other_gateway; Gateway_obj my_gateway]
    ∧ meta_namespace (gw_Gateway_meta parent) = "my-namespace"
    ∧ meta_name (gw_Gateway_meta parent) = "my-gateway".
Proof.
  apply (desiredSecurityPolicy_links_to_gateway
           [other_gateway; Gateway_obj my_gateway] (Gateway_obj my_gateway)).
  apply elem_of_cons. right. apply list_elem_of_here.
Defined.

(** ** The status of a policy *)

Section StatusFacts.
Context {Path Rule : Type}.
Variable path_locators : Path → list string.
Variable effective_rule : Path → string → Rule.
Variable DeepEqual : Rule → Rule → bool.
Variable Diff : Rule → Rule → string.
Variable rules : gmap string Rule.

#[local] Abbreviation enforced := (path_enforced effective_rule DeepEqual rules).
#[local] Abbreviation body :=
  (paths_loop_body path_locators effective_rule DeepEqual Diff rules).
#[local] Abbreviation pathString := (λ path, Join (path_locators path) "→").

Lemma rules_loop_fullyEnforced (path : Path) (state : bool * string) :
  fst (rules_loop effective_rule DeepEqual Diff path rules state) = true
  ↔ fst state = true ∧ enforced path.
Proof.
  unfold rules_loop, path_enforced.
  assert (∀ k v, rules !! k = Some v ↔ (k, v) ∈ map_to_list rules) as Hentries
    by (intros k v; by rewrite elem_of_map_to_list).
  setoid_rewrite Hentries. clear Hentries.
  revert state. induction (map_to_list rules) as [|[k v] l IH]; intros state.
  - simpl. split; [intros H; split; [done |] | by intros (? & _)].
    intros k v Hin. by inversion Hin.
  - simpl. rewrite IH. destruct state as [fullyEnforced diff].
    destruct (DeepEqual (effective_rule path k) v) eqn:Heq; simpl.
    + split.
      * intros (Hfe & Hl). split; [done |]. intros k' v' Hin.
        apply elem_of_cons in Hin as [[= -> ->] | Hin]; [done | by apply Hl].
      * intros (Hfe & Hl). split; [done |]. intros k' v' Hin.
        apply Hl. by right.
    + split; [by intros (? & _) |]. intros (_ & Hl).
      rewrite Hl in Heq; [done | by left].
Qed.

Lemma paths_loop_body_enforced (state : PathsState) (path : Path) :
  enforced path →
  state_cond (body state path) = state_cond state
  ∧ state_enforcedPaths (body state path)
    = (state_enforcedPaths state ++ [pathString path])%list
  ∧ state_affectedPaths (body state path) = state_affectedPaths state.
Proof.
  intros Hpath. unfold paths_loop_body.
  pose proof (rules_loop_fullyEnforced path (true, state_diff state)) as Hloop.
  destruct (rules_loop effective_rule DeepEqual Diff path rules
              (true, state_diff state)) as [[|] diff]; simpl in *; [done |].
  discriminate (proj2 Hloop (conj eq_refl Hpath)).
Qed.

Lemma paths_loop_body_affected (state : PathsState) (path : Path) :
  ¬ enforced path →
  Condition_Type (state_cond (body state path))
  = Condition_Type (state_cond state)
  ∧ Condition_Status (state_cond (body state path)) = ConditionFalse
  ∧ Condition_Reason (state_cond (body state path)) = "PolicyAffected"
  ∧ state_enforcedPaths (body state path) = state_enforcedPaths state
  ∧ state_affectedPaths (body state path)
    = (state_affectedPaths state ++ [pathString path])%list.
Proof.
  intros Hpath. unfold paths_loop_body.
  pose proof (rules_loop_fullyEnforced path (true, state_diff state)) as Hloop.
  destruct (rules_loop effective_rule DeepEqual Diff path rules
              (true, state_diff state)) as [[|] diff]; simpl in *; [|done].
  exfalso. apply Hpath. by apply Hloop.
Qed.

Lemma path_enforced_dec (path : Path) : enforced path ∨ ¬ enforced path.
Proof.
  pose proof (rules_loop_fullyEnforced path (true, "")) as Hloop.
  destruct (fst (rules_loop effective_rule DeepEqual Diff path rules (true, "")))
    eqn:Hfst.
  - left. by apply Hloop.
  - right. intros Hpath. discriminate (proj2 Hloop (conj eq_refl Hpath)).
Qed.

(** The state after the loop over the paths. *)
Lemma paths_loop_spec (paths : list Path) (state : PathsState) :
  let final := foldl body state paths in
  Condition_Type (state_cond final) = Condition_Type (state_cond state)
  ∧ ((∀ path, path ∈ paths → enforced path) →
     state_cond final = state_cond state
     ∧ state_enforcedPaths final
       = (state_enforcedPaths state ++ (pathString <$> paths))%list
     ∧ state_affectedPaths final = state_affectedPaths state)
  ∧ (¬ (∀ path, path ∈ paths → enforced path) →
     Condition_Status (state_cond final) = ConditionFalse
     ∧ Condition_Reason (state_cond final) = "PolicyAffected"
     ∧ state_affectedPaths final ≠ [])
  ∧ (length (state_enforcedPaths final) + length (state_affectedPaths final)
     = length (state_enforcedPaths state) + length (state_affectedPaths state)
       + length paths)%nat.
Proof.
  cbv zeta. induction paths as [|path paths IH] using rev_ind.
  - simpl. split; [done |]. split; [by rewrite app_nil_r |].
    split; [|lia]. intros Hnot. exfalso. apply Hnot. intros path Hin.
    by inversion Hin.
  - rewrite foldl_app. simpl. rewrite length_app. simpl.
    destruct IH as (IHtype & IHall & IHsome & IHlen).
    destruct (path_enforced_dec path) as [Hpath | Hpath].
    + destruct (paths_loop_body_enforced (foldl body state paths) path Hpath)
        as (Hcond & Henf & Haff).
      rewrite Hcond, Henf, Haff, length_app. simpl.
      split; [done |]. split; [|split; [|lia]].
      * intros Hall. destruct IHall as (-> & -> & ->).
        { intros p Hp. apply Hall. apply elem_of_app. by left. }
        by rewrite fmap_app, app_assoc.
      * intros Hnot. apply IHsome. intros Hall. apply Hnot.
        intros p Hp. apply elem_of_app in Hp as [Hp | Hp]; [by apply Hall |].
        by apply list_elem_of_singleton in Hp as ->.
    + destruct (paths_loop_body_affected (foldl body state paths) path Hpath)
        as (Htype & Hstatus & Hreason & Henf & Haff).
      rewrite Htype, Hstatus, Hreason, Henf, Haff, length_app. simpl.
      split; [done |]. split; [|split; [|lia]].
      * intros Hall. exfalso. apply Hpath, Hall.
        apply elem_of_app. right. apply list_elem_of_here.
      * intros _. split; [done |]. split; [done |].
        by destruct (state_affectedPaths (foldl body state paths)).
Qed.
Lemma all_enforced_dec (paths : list Path) :
  (∀ path, path ∈ paths → enforced path)
  ∨ ¬ (∀ path, path ∈ paths → enforced path).
Proof.
  induction paths as [|path paths [IH | IH]].
  - left. intros path Hin. by inversion Hin.
  - destruct (path_enforced_dec path) as [Hpath | Hpath].
    + left. intros p Hp. apply elem_of_cons in Hp as [-> | Hp]; [done |].
      by apply IH.
    + right. intros Hall. apply Hpath, Hall. by left.
  - right. intros Hall. apply IH. intros p Hp. apply Hall. by right.
Qed.

Lemma append_empty_inv (a b : string) : a +:+ b = "" → a = "" ∧ b = "".
Proof.
  destruct a as [|c a]; [done |]. rewrite append_cons. discriminate.
Qed.

(** X21. The condition that [aggregatePolicyConditions] returns has type
    Enforced.  Its status is True, with reason Enforced, exactly when on
    every path every rule of the policy equals the rule of the effective
    policy; otherwise the status is False and the reason PolicyAffected.
    Its message is empty only when there is no path, and when the policy
    is enforced on every path the message lists all the paths, in their
    order, each as its locators joined by arrows. *)
Theorem aggregatePolicyConditions_status (paths : list Path) :
  let cond :=
    aggregatePolicyConditions path_locators effective_rule DeepEqual Diff
      rules paths in
  Condition_Type cond = "Enforced"
  ∧ (Condition_Status cond = ConditionTrue
     ↔ ∀ path, path ∈ paths → enforced path)
  ∧ ((Condition_Status cond = ConditionTrue ∧ Condition_Reason cond = "Enforced")
     ∨ (Condition_Status cond = ConditionFalse
        ∧ Condition_Reason cond = "PolicyAffected"))
  ∧ (Condition_Message cond = "" ↔ paths = [])
  ∧ ((∀ path, path ∈ paths → enforced path) →
     Condition_Message cond
     = match paths with
       | [] => ""
       | _ => "Fully enforcing policy on the following paths: "
              +:+ Join (pathString <$> paths) ", "
       end).
Proof.
  cbv zeta. unfold aggregatePolicyConditions. cbv zeta.
  match goal with
  | |- context [foldl ?f ?s0 paths] =>
      pose proof (paths_loop_spec paths s0) as (Htype & Hall & Hsome & Hlen);
      cbv zeta in Htype, Hall, Hsome, Hlen;
      set (final := foldl f s0 paths) in *
  end.
  simpl in Htype, Hall, Hlen. simpl.
  destruct (all_enforced_dec paths) as [Henforced | Haffected].
  - destruct (Hall Henforced) as (Hcond & Henf & Haff).
    rewrite Hcond, Henf, Haff. simpl.
    split; [done |]. split; [done |]. split; [by left |].
    destruct paths as [|path paths']; [done |].
    simpl. split; [|done]. split; [|done].
    intros Hempty. by apply append_empty_inv in Hempty as (? & _).
  - destruct (Hsome Haffected) as (Hstatus & Hreason & Hnonempty).
    rewrite Htype, Hstatus, Hreason.
    split; [done |]. split; [done |]. split; [by right |].
    split; [|done].
    destruct (state_affectedPaths final) as [|a affected]; [done |]. simpl.
    split.
    + intros Hempty. apply append_empty_inv in Hempty as (_ & Hempty).
      by apply append_empty_inv in Hempty as (? & _).
    + intros ->. exfalso. apply Haffected. intros path Hin. by inversion Hin.
Qed.
End StatusFacts.

Lemma aggregatePolicyConditions_status_witness :
  Condition_Message
    (aggregatePolicyConditions (Rule := string) (λ path : list string, path)
       (λ _ k, if String.eqb k "rule-1" then "allow" else "")
       String.eqb (λ a b, a +:+ " != " +:+ b)
       {[ "rule-1" := "allow" ]}
       [["gateway:ns/gw"; "gateway:ns/gw#listener-1"]])
  = "Fully enforcing policy on the following paths: gateway:ns/gw→gateway:ns/gw#listener-1".
Proof.
  pose proof (aggregatePolicyConditions_status (Rule := string)
                (λ path : list string, path)
                (λ _ k, if String.eqb k "rule-1" then "allow" else "")
                String.eqb (λ a b, a +:+ " != " +:+ b)
                {[ "rule-1" := "allow" ]}
                [["gateway:ns/gw"; "gateway:ns/gw#listener-1"]])
    as (_ & _ & _ & _ & Hmessage).
  cbv zeta in Hmessage. rewrite Hmessage; [reflexivity |].
  intros path _ k v Hk.
  apply lookup_singleton_Some in Hk as (<- & <-). reflexivity.
Defined.
